(** * GeoJSON Viewer: the synchronisation engine of geojson_viewer.py

    A shallow embedding of the plugin's non-UI logic: the value coercion of
    the feature encoder, the content fetcher with its MD5 content hash, the
    change tracker, the upload path, the poll/reload path and the loading of
    the persisted registry.  Python objects that the code mutates in place
    (the dicts and sets held by [GeoJsonViewer], the QGIS project, the message
    bar, the network) are fields of one explicit state record that every
    method threads through. *)

From Stdlib Require Import ZArith List String Ascii Lia.
From Stdlib.Strings Require Import Byte.
From stdpp Require Import base gmap sets list strings pretty.
Import ListNotations.

Set Warnings "-register-all".
Local Open Scope string_scope.
Local Open Scope list_scope.
Local Open Scope Z_scope.

(* ===================================================================== *)
(** ** Python: exceptions, try/except, ordered dicts                      *)
(* ===================================================================== *)

Module Py.

(** A raised exception.  [KeyError key] is a [KeyError] raised for [key],
    whose [str(e)] is the key in quotes; for the other exceptions the
    carried text stands for [str(e)]. *)
Inductive Exn :=
| Exception (msg : string)
| KeyError (key : string).

Definition exn_str (e : Exn) : string :=
  match e with
  | Exception m => m
  | KeyError key => "'" +:+ key +:+ "'"
  end.

(** Outcome of evaluating a Python expression. *)
Inductive Result (A : Type) :=
| Ok (a : A)
| Raise (e : Exn).
Arguments Ok {A} a.
Arguments Raise {A} e.

Definition bind {A B} (r : Result A) (k : A -> Result B) : Result B :=
  match r with
  | Ok a => k a
  | Raise e => Raise e
  end.

(** [try: body  except Exception as e: handler e] *)
Definition try_except {A} (body : Result A) (handler : Exn -> Result A) : Result A :=
  match body with
  | Ok a => Ok a
  | Raise e => handler e
  end.

(** Insertion-ordered [dict] with string keys: assigning to a key that
    exists replaces the value in place, a new key goes to the end. *)
Fixpoint dict_set {K V} `{EqDecision K} (k : K) (v : V) (d : list (K * V)) : list (K * V) :=
  match d with
  | [] => [(k, v)]
  | (k', v') :: d' =>
      if decide (k = k') then (k, v) :: d' else (k', v') :: dict_set k v d'
  end.

Fixpoint dict_get {K V} `{EqDecision K} (k : K) (d : list (K * V)) : option V :=
  match d with
  | [] => None
  | (k', v') :: d' => if decide (k = k') then Some v' else dict_get k d'
  end.

Definition dict_keys {K V} (d : list (K * V)) : list K := map fst d.

(** [del d[k]] / [d.pop(k, None)] *)
Definition dict_del {K V} `{EqDecision K} (k : K) (d : list (K * V)) : list (K * V) :=
  filter (fun kv => bool_decide (kv.1 <> k)) d.

(** [QDate]: a calendar date of the proleptic Gregorian calendar. *)
Record QDate := { year : Z; month : Z; day : Z }.

(** What a property value is once unwrapped.  [PyOther] is any object that
    is not a string, number, boolean, [None] or [QDate] (a [QDateTime], a
    [QTime], a list, ...); it carries what [str(val)] does on it. *)
Inductive PyObj :=
| PyNone
| PyStr (s : string)
| PyBool (b : bool)
| PyInt (n : Z)
| PyFloat (bits : Z)             (* IEEE-754 binary64 bit pattern *)
| PyDate (d : QDate)
| PyOther (str : Result string).

(** A value as it reaches [convert_variant]: bare, inside a [QVariant]
    (whose [value()] gives the object), or an object that has a
    [toPyObject] attribute (whose call gives the object). *)
Inductive PyVal :=
| Bare (o : PyObj)
| QVariant (o : PyObj)
| HasToPyObject (o : PyObj).

(** Python data handed to [json.dumps] and returned by [json.loads]:
    dicts, lists and leaves. *)
Inductive PyData :=
| DVal (v : PyObj)
| DList (l : list PyData)
| DDict (d : list (string * PyData)).

Definition DStr (s : string) : PyData := DVal (PyStr s).

End Py.
Import Py.

(* ===================================================================== *)
(** ** Qt: QDate.toString("yyyy-MM-dd")                                   *)
(* ===================================================================== *)

Module Qt.

Definition is_leap (y : Z) : bool :=
  ((y mod 4 =? 0) && negb (y mod 100 =? 0)) || (y mod 400 =? 0).

Definition days_in_month (y m : Z) : Z :=
  if (m =? 2) then (if is_leap (if y <? 0 then y + 1 else y) then 29 else 28)
  else if (m =? 4) || (m =? 6) || (m =? 9) || (m =? 11) then 30
  else 31.

(** [QDate.isValid]: there is no year 0. *)
Definition isValid (d : QDate) : bool :=
  negb (year d =? 0) && (1 <=? month d) && (month d <=? 12)
  && (1 <=? day d) && (day d <=? days_in_month (year d) (month d)).

Definition digit (n : Z) : string :=
  String (ascii_of_N (48 + Z.to_N (n mod 10))) EmptyString.

(** The last [w] decimal digits of [n], zero padded. *)
Fixpoint digits (w : nat) (n : Z) : string :=
  match w with
  | O => ""
  | S w' => digits w' (n / 10) +:+ digit n
  end.

(** [yyyy]: the year as at least four digits, a minus sign before a
    negative one. *)
Definition yyyy (y : Z) : string :=
  let a := Z.abs y in
  let body := if a <? 10000 then digits 4 a else pretty a in
  if y <? 0 then "-" +:+ body else body.

(** [d.toString("yyyy-MM-dd")]; an invalid date gives the empty string. *)
Definition toString_yyyy_MM_dd (d : QDate) : string :=
  if isValid d
  then yyyy (year d) +:+ "-" +:+ digits 2 (month d) +:+ "-" +:+ digits 2 (day d)
  else "".

End Qt.

(* ===================================================================== *)
(** ** hashlib.md5(...).hexdigest()                                       *)
(* ===================================================================== *)

Module Hashlib.

(** MD5 as RFC 1321 has it, on 32-bit words held in [Z]. *)

Definition w32 (x : Z) : Z := x mod 2 ^ 32.

Definition rotl (x c : Z) : Z :=
  w32 (Z.lor (Z.shiftl x c) (Z.shiftr x (32 - c))).

Definition md5_shift : list Z :=
  [7; 12; 17; 22; 7; 12; 17; 22; 7; 12; 17; 22; 7; 12; 17; 22;
   5; 9; 14; 20; 5; 9; 14; 20; 5; 9; 14; 20; 5; 9; 14; 20;
   4; 11; 16; 23; 4; 11; 16; 23; 4; 11; 16; 23; 4; 11; 16; 23;
   6; 10; 15; 21; 6; 10; 15; 21; 6; 10; 15; 21; 6; 10; 15; 21].

Definition md5_K : list Z :=
  [0xd76aa478; 0xe8c7b756; 0x242070db; 0xc1bdceee;
   0xf57c0faf; 0x4787c62a; 0xa8304613; 0xfd469501;
   0x698098d8; 0x8b44f7af; 0xffff5bb1; 0x895cd7be;
   0x6b901122; 0xfd987193; 0xa679438e; 0x49b40821;
   0xf61e2562; 0xc040b340; 0x265e5a51; 0xe9b6c7aa;
   0xd62f105d; 0x02441453; 0xd8a1e681; 0xe7d3fbc8;
   0x21e1cde6; 0xc33707d6; 0xf4d50d87; 0x455a14ed;
   0xa9e3e905; 0xfcefa3f8; 0x676f02d9; 0x8d2a4c8a;
   0xfffa3942; 0x8771f681; 0x6d9d6122; 0xfde5380c;
   0xa4beea44; 0x4bdecfa9; 0xf6bb4b60; 0xbebfbc70;
   0x289b7ec6; 0xeaa127fa; 0xd4ef3085; 0x04881d05;
   0xd9d4d039; 0xe6db99e5; 0x1fa27cf8; 0xc4ac5665;
   0xf4292244; 0x432aff97; 0xab9423a7; 0xfc93a039;
   0x655b59c3; 0x8f0ccc92; 0xffeff47d; 0x85845dd1;
   0x6fa87e4f; 0xfe2ce6e0; 0xa3014314; 0x4e0811a1;
   0xf7537e82; 0xbd3af235; 0x2ad7d2bb; 0xeb86d391].

Definition byteZ (b : Byte.byte) : Z := Z.of_N (Byte.to_N b).

(** [n] as [k] little-endian bytes. *)
Fixpoint le_bytes (k : nat) (n : Z) : list Z :=
  match k with
  | O => []
  | S k' => (n mod 256) :: le_bytes k' (n / 256)
  end.

Fixpoint le_word (bs : list Z) : Z :=
  match bs with
  | [] => 0
  | b :: bs' => b + 256 * le_word bs'
  end.

(** The message, a 1 bit, zeros up to 56 mod 64, then the bit length. *)
Definition md5_pad (msg : list Z) : list Z :=
  let len := Z.of_nat (length msg) in
  let zeros := Z.to_nat ((55 - len) mod 64) in
  msg ++ [128] ++ repeat 0 zeros ++ le_bytes 8 ((8 * len) mod 2 ^ 64).

Fixpoint words (n : nat) (bs : list Z) : list Z :=
  match n with
  | O => []
  | S n' => le_word (firstn 4 bs) :: words n' (skipn 4 bs)
  end.

Definition md5_step (M : list Z) (st : Z * Z * Z * Z) (i : Z) : Z * Z * Z * Z :=
  let '(A, B, C, D) := st in
  let '(F, g) :=
    if i <? 16 then (Z.lor (Z.land B C) (Z.land (Z.lxor B 0xffffffff) D), i)
    else if i <? 32 then (Z.lor (Z.land D B) (Z.land (Z.lxor D 0xffffffff) C), (5 * i + 1) mod 16)
    else if i <? 48 then (Z.lxor (Z.lxor B C) D, (3 * i + 5) mod 16)
    else (Z.lxor C (Z.lor B (Z.lxor D 0xffffffff)), (7 * i) mod 16) in
  let K := nth (Z.to_nat i) md5_K 0 in
  let s := nth (Z.to_nat i) md5_shift 0 in
  let F' := w32 (F + A + K + nth (Z.to_nat g) M 0) in
  (D, w32 (B + rotl F' s), B, C).

Definition md5_chunk (st : Z * Z * Z * Z) (chunk : list Z) : Z * Z * Z * Z :=
  let M := words 16 chunk in
  let '(A, B, C, D) := st in
  let '(A', B', C', D') := fold_left (md5_step M) (map Z.of_nat (seq 0 64)) st in
  (w32 (A + A'), w32 (B + B'), w32 (C + C'), w32 (D + D')).

Fixpoint md5_chunks (n : nat) (st : Z * Z * Z * Z) (bs : list Z) : Z * Z * Z * Z :=
  match n with
  | O => st
  | S n' => md5_chunks n' (md5_chunk st (firstn 64 bs)) (skipn 64 bs)
  end.

Definition hex_digit (n : Z) : string :=
  String (ascii_of_N (Z.to_N (if n <? 10 then 48 + n else 87 + n))) EmptyString.

Definition hex_byte (b : Z) : string := hex_digit (b / 16) +:+ hex_digit (b mod 16).

Definition md5_hexdigest (content : list Byte.byte) : string :=
  let padded := md5_pad (map byteZ content) in
  let '(A, B, C, D) :=
    md5_chunks (length padded / 64)%nat
               (0x67452301, 0xefcdab89, 0x98badcfe, 0x10325476) padded in
  fold_right (fun b acc => hex_byte b +:+ acc) ""
             (le_bytes 4 A ++ le_bytes 4 B ++ le_bytes 4 C ++ le_bytes 4 D).

End Hashlib.

Definition bytes_of (s : string) : list Byte.byte := list_byte_of_string s.

(* ===================================================================== *)
(** ** QGIS: features, layers                                             *)
(* ===================================================================== *)

Module Qgis.

(** A geometry, seen through the two calls the encoder makes on it:
    [QgsWkbTypes.displayString(geometry.wkbType())] and
    [json.loads(geometry.asJson())]. *)
Record Geometry := { wkb_display : string; asJson : PyData }.

Record Feature := { geometry : Geometry; attributes : list PyVal }.

Definition null_geometry : Geometry :=
  {| wkb_display := "Unknown"; asJson := DVal PyNone |}.

(** What [getFeature] returns for an identifier the layer does not hold. *)
Definition invalid_feature : Feature :=
  {| geometry := null_geometry; attributes := [] |}.

Record Layer := {
  layer_id : nat;                  (* lyr.id() *)
  name : string;                   (* lyr.name() *)
  isValid : bool;
  fields : list string;            (* layer.fields().at(i).name() *)
  features : gmap Z Feature;
  hidden_widgets : list nat;       (* 'Hidden' editor widget, read-only *)
  hiddenFields : list string       (* "attributeTable/hiddenFields" *)
}.

Definition getFeature (l : Layer) (fid : Z) : Feature :=
  default invalid_feature (features l !! fid).

(** [layer.fields().at(i).name()]; out of range raises [KeyError] with
    the index, written in decimal, as its key. *)
Definition field_name_at (l : Layer) (i : nat) : Result string :=
  match fields l !! i with
  | Some n => Ok n
  | None => Raise (KeyError (pretty i))
  end.

(** [layer.fields().indexOf(field_name)], [None] for -1. *)
Fixpoint indexOf (fs : list string) (field_name : string) : option nat :=
  match fs with
  | [] => None
  | f :: fs' => if decide (f = field_name) then Some O else S <$> indexOf fs' field_name
  end.

End Qgis.
Import Qgis.

(* ===================================================================== *)
(** ** The world the plugin runs in                                       *)
(* ===================================================================== *)

Inductive Request :=
| GET (url : string) (headers : list (string * string))
| POST (url : string) (headers : list (string * string)) (data : PyData).

Definition request_headers (r : Request) : list (string * string) :=
  match r with
  | GET _ h => h
  | POST _ h _ => h
  end.

(** [response.json()] is the decoded body, or raises. *)
Record Response := {
  status_code : Z;
  content : list Byte.byte;
  json : Result PyData
}.

(** What OGR makes of a file's bytes. *)
Record OgrData := {
  ogr_valid : bool;
  ogr_fields : list string;
  ogr_features : gmap Z Feature
}.

(** The network and the OGR driver.  The answer to a request may depend on
    the requests made before it; a transport error is a raised exception. *)
Record Env := {
  send : list Request -> Request -> Result Response;
  ogr_open : list Byte.byte -> Result OgrData
}.

Inductive Level := Info | Success | Critical.

(** A value of the settings store under a [bookmarks/...] key: the text of
    a registry written by [json.dumps], or text [json.loads] rejects. *)
Inductive Blob :=
| Registry (r : list (string * list (string * string)))
| Malformed (e : Exn).

Definition json_loads (b : Blob) : Result (list (string * list (string * string))) :=
  match b with
  | Registry r => Ok r
  | Malformed e => Raise e
  end.

(* ===================================================================== *)
(** ** class GeoJsonViewer                                                *)
(* ===================================================================== *)

Module GeoJsonViewer.

(** The attributes of the [GeoJsonViewer] instance, followed by the
    objects it reaches through QGIS and [requests]. *)
Record State := {
  layers : list (string * list (string * string));   (* self.layers *)
  layer_hashes : gmap string string;                   (* self.layer_hashes *)
  _edited_features : gset Z;
  _added_features : list (Z * Feature);
  _deleted_ids : gset Z;
  settings : gmap string Blob;                         (* self.settings *)
  project_file : string;          (* QgsProject.instance().fileName() *)
  project : list Layer;           (* QgsProject.instance().mapLayers().values() *)
  connections : list (nat * (string * string));  (* layers wired by connect_sync_signal *)
  message_bar : list (Level * string);           (* iface.messageBar() *)
  http_log : list Request;                       (* requests issued so far *)
  next_layer_id : nat
}.

(** A diff: the three containers the change tracker fills. *)
Definition diff (st : State) : gset Z * list (Z * Feature) * gset Z :=
  (_edited_features st, _added_features st, _deleted_ids st).

Definition empty_diff : gset Z * list (Z * Feature) * gset Z := (∅, [], ∅).

Definition set_layers v st :=
  {| layers := v; layer_hashes := layer_hashes st;
     _edited_features := _edited_features st; _added_features := _added_features st;
     _deleted_ids := _deleted_ids st; settings := settings st;
     project_file := project_file st; project := project st;
     connections := connections st; message_bar := message_bar st;
     http_log := http_log st; next_layer_id := next_layer_id st |}.

Definition set_layer_hashes v st :=
  {| layers := layers st; layer_hashes := v;
     _edited_features := _edited_features st; _added_features := _added_features st;
     _deleted_ids := _deleted_ids st; settings := settings st;
     project_file := project_file st; project := project st;
     connections := connections st; message_bar := message_bar st;
     http_log := http_log st; next_layer_id := next_layer_id st |}.

Definition set_diff (d : gset Z * list (Z * Feature) * gset Z) st :=
  {| layers := layers st; layer_hashes := layer_hashes st;
     _edited_features := d.1.1; _added_features := d.1.2;
     _deleted_ids := d.2; settings := settings st;
     project_file := project_file st; project := project st;
     connections := connections st; message_bar := message_bar st;
     http_log := http_log st; next_layer_id := next_layer_id st |}.

Definition set_settings v st :=
  {| layers := layers st; layer_hashes := layer_hashes st;
     _edited_features := _edited_features st; _added_features := _added_features st;
     _deleted_ids := _deleted_ids st; settings := v;
     project_file := project_file st; project := project st;
     connections := connections st; message_bar := message_bar st;
     http_log := http_log st; next_layer_id := next_layer_id st |}.

Definition set_project v c st :=
  {| layers := layers st; layer_hashes := layer_hashes st;
     _edited_features := _edited_features st; _added_features := _added_features st;
     _deleted_ids := _deleted_ids st; settings := settings st;
     project_file := project_file st; project := v;
     connections := c; message_bar := message_bar st;
     http_log := http_log st; next_layer_id := next_layer_id st |}.

Definition set_message_bar v st :=
  {| layers := layers st; layer_hashes := layer_hashes st;
     _edited_features := _edited_features st; _added_features := _added_features st;
     _deleted_ids := _deleted_ids st; settings := settings st;
     project_file := project_file st; project := project st;
     connections := connections st; message_bar := v;
     http_log := http_log st; next_layer_id := next_layer_id st |}.

Definition set_http_log v st :=
  {| layers := layers st; layer_hashes := layer_hashes st;
     _edited_features := _edited_features st; _added_features := _added_features st;
     _deleted_ids := _deleted_ids st; settings := settings st;
     project_file := project_file st; project := project st;
     connections := connections st; message_bar := message_bar st;
     http_log := v; next_layer_id := next_layer_id st |}.

Definition set_next_layer_id v st :=
  {| layers := layers st; layer_hashes := layer_hashes st;
     _edited_features := _edited_features st; _added_features := _added_features st;
     _deleted_ids := _deleted_ids st; settings := settings st;
     project_file := project_file st; project := project st;
     connections := connections st; message_bar := message_bar st;
     http_log := http_log st; next_layer_id := v |}.

(** *** Statements: state passing with exceptions.  What a statement did
    to the state before it raised stays done. *)

Definition M (A : Type) : Type := State -> Result A * State.

Definition ret {A} (a : A) : M A := fun st => (Ok a, st).

Definition bindM {A B} (m : M A) (k : A -> M B) : M B :=
  fun st => match m st with
            | (Ok a, st') => k a st'
            | (Raise e, st') => (Raise e, st')
            end.

Definition lift {A} (r : Result A) : M A := fun st => (r, st).

Definition get : M State := fun st => (Ok st, st).

Definition modify (f : State -> State) : M unit := fun st => (Ok tt, f st).

Definition try_exceptM {A} (body : M A) (handler : Exn -> M A) : M A :=
  fun st => match body st with
            | (Ok a, st') => (Ok a, st')
            | (Raise e, st') => handler e st'
            end.

Fixpoint for_each {A} (l : list A) (body : A -> M unit) : M unit :=
  match l with
  | [] => ret tt
  | a :: l' => bindM (body a) (fun _ => for_each l' body)
  end.

Fixpoint mapR {A B} (f : A -> Result B) (l : list A) : Result (list B) :=
  match l with
  | [] => Ok []
  | a :: l' => Py.bind (f a) (fun b => Py.bind (mapR f l') (fun bs => Ok (b :: bs)))
  end.

(** The state a statement leaves. *)
Definition exec {A} (m : M A) (st : State) : State := (m st).2.

Notation "x <- m ;; k" := (bindM m (fun x => k))
  (at level 100, m at next level, right associativity).
Notation "m >> k" := (bindM m (fun _ => k))
  (at level 100, right associativity).
Notation "x <~ r ;; k" := (Py.bind r (fun x => k))
  (at level 100, r at next level, right associativity).

(** [iface.messageBar().pushInfo("GeoJSON Viewer", text)] and its kin; the
    title is the same in every call and is left out. *)
Definition push (lvl : Level) (text : string) : M unit :=
  modify (fun st => set_message_bar (message_bar st ++ [(lvl, text)]) st).

Definition pushInfo := push Info.
Definition pushSuccess := push Success.
Definition pushCritical := push Critical.

(** [str == ""] is the falsy string. *)
Definition truthy (s : string) : bool := negb (String.eqb s "").

(** *** convert_variant (lines 302-308) *)
Definition convert_variant (val : PyVal) : Result PyObj :=
  (* if isinstance(val, QVariant): val = val.value() *)
  let val := match val with QVariant o => Bare o | _ => val end in
  (* if hasattr(val, 'toPyObject'): val = val.toPyObject() *)
  let val := match val with HasToPyObject o | Bare o | QVariant o => o end in
  match val with
  | PyDate d => Ok (PyStr (Qt.toString_yyyy_MM_dd d))
  | PyStr _ | PyInt _ | PyFloat _ | PyBool _ | PyNone => Ok val
  | PyOther str =>
      try_except (s <~ str ;; Ok (PyStr s)) (fun _ => Ok PyNone)
  end.

(** The dict comprehension over [range(len(props))]. *)
Definition serialize_properties (layer : Layer) (props : list PyVal)
  : Result (list (string * PyData)) :=
  foldl (fun acc iv =>
           d <~ acc ;;
           k <~ field_name_at layer iv.1 ;;
           v <~ convert_variant iv.2 ;;
           Ok (dict_set k (DVal v) d))
        (Ok []) (imap pair props).

(** *** _serialize_feature (lines 345-357) *)
Definition _serialize_feature (layer : Layer) (feat : Feature) : Result PyData :=
  let geom := geometry feat in
  let props := attributes feat in
  let geom_type := wkb_display geom in
  properties <~ serialize_properties layer props ;;
  Ok (DDict [("type", DStr geom_type);
             ("geometry", asJson geom);
             ("properties", DDict properties)]).

(** [feature[key] = value] *)
Definition set_item (key : string) (value : PyData) (feature : PyData) : Result PyData :=
  match feature with
  | DDict d => Ok (DDict (dict_set key value d))
  | _ => Raise (Exception "TypeError")
  end.

Section Methods.
Context (env : Env).

(** [requests.get] / [requests.post]: the request goes out, then the
    network answers or the call raises. *)
Definition request (r : Request) : M Response :=
  fun st => (send env (http_log st) r, set_http_log (http_log st ++ [r]) st).

(** *** get_geojson_hash (lines 262-270) *)
Definition get_geojson_hash (url token : string)
  : M (option (string * list Byte.byte)) :=
  try_exceptM
    (let headers := if truthy token then [("Authorization", "Bearer " +:+ token)] else [] in
     response <- request (GET url headers) ;;
     if negb (status_code response =? 200) then ret None
     else ret (Some (Hashlib.md5_hexdigest (content response), content response)))
    (fun _ => ret None).

(** *** create_layer_from_content (lines 272-300) *)
Definition hide_id_fields (layer : Layer) : Layer :=
  let hidden := filter (fun f => bool_decide (is_Some (indexOf (fields layer) f))) ["id"; "fid"] in
  {| layer_id := layer_id layer; name := Qgis.name layer; isValid := isValid layer;
     fields := fields layer; features := features layer;
     hidden_widgets := omap (indexOf (fields layer)) ["id"; "fid"];
     hiddenFields := hidden |}.

Definition create_layer_from_content (content : list Byte.byte) (name : string)
  : M (option Layer) :=
  try_exceptM
    (ogr <- lift (ogr_open env content) ;;
     st <- get ;;
     modify (set_next_layer_id (S (next_layer_id st))) >>
     let layer := {| layer_id := next_layer_id st; name := name;
                     isValid := ogr_valid ogr; fields := ogr_fields ogr;
                     features := ogr_features ogr;
                     hidden_widgets := []; hiddenFields := [] |} in
     if negb (isValid layer) then
       pushCritical ("Layer '" +:+ name +:+ "' failed to load from temporary file.") >>
       ret None
     else ret (Some (hide_id_fields layer)))
    (fun e =>
       pushCritical ("Error creating layer from content: " +:+ exn_str e) >>
       ret None).

(** *** connect_sync_signal (lines 255-260): the five lambdas are wired
    to the layer; [handle] below is what they do when a signal fires. *)
Definition connect_sync_signal (layer : Layer) (url token : string) : M unit :=
  modify (fun st => set_project (project st)
                      (connections st ++ [(layer_id layer, (url, token))]) st).

Definition addMapLayer (layer : Layer) : M unit :=
  modify (fun st => set_project (project st ++ [layer]) (connections st) st).

(** [removeMapLayer(id)] takes the layer out of the project and deletes
    it, and its signal connections with it. *)
Definition removeMapLayer (id : nat) : M unit :=
  modify (fun st =>
    set_project (filter (fun lyr => bool_decide (layer_id lyr <> id)) (project st))
                (filter (fun c => bool_decide (c.1 <> id)) (connections st)) st).

(** *** sync_layer_to_server (lines 310-343) *)
Definition tagged (layer : Layer) (mode : string) (feat : Feature) : Result PyData :=
  feature <~ _serialize_feature layer feat ;;
  set_item "__mode" (DStr mode) feature.

Definition sync_features (layer : Layer) (st : State) : Result (list PyData) :=
  updates <~ mapR (fun fid => tagged layer "update" (getFeature layer fid))
                  (elements (_edited_features st)) ;;
  adds <~ mapR (fun kv => tagged layer "add" kv.2) (_added_features st) ;;
  Ok (updates ++ adds).

(** [response.json().get("message", "Synced successfully.")], then the
    string [pushSuccess] requires. *)
Definition success_message (response : Response) : Result string :=
  body <~ json response ;;
  match body with
  | DDict d =>
      match default (DStr "Synced successfully.") (dict_get "message" d) with
      | DVal (PyStr msg) => Ok msg
      | _ => Raise (Exception "TypeError")
      end
  | _ => Raise (Exception "AttributeError")
  end.

Definition sync_layer_to_server (layer : Layer) (url token : string) : M unit :=
  try_exceptM
    (st <- get ;;
     let changed_ids : gset Z :=
       _edited_features st ∪ list_to_set (dict_keys (_added_features st)) in
     if decide (changed_ids = ∅) then pushInfo "No changes to sync."
     else
       features <- lift (sync_features layer st) ;;
       let payload := DDict [("type", DStr "FeatureCollection");
                             ("features", DList features)] in
       let headers := [("Authorization", "Bearer " +:+ token);
                       ("Content-Type", "application/json")] in
       response <- request (POST url headers payload) ;;
       if status_code response =? 200 then
         modify (set_diff empty_diff) >>
         (msg <- lift (success_message response) ;;
          pushSuccess msg)
       else pushCritical ("Sync failed: " +:+ pretty (status_code response)))
    (fun e => pushCritical ("Sync error: " +:+ exn_str e)).

(** *** reload_layer (lines 230-253) *)
Definition reload_layer (name url token : string) : M unit :=
  fetched <- get_geojson_hash url token ;;
  match fetched with
  | None => pushCritical ("Failed to check updates for layer '" +:+ name +:+ "'.")
  | Some (hash_val, content) =>
      st <- get ;;
      let layer_present := existsb (fun lyr => String.eqb (Qgis.name lyr) name) (project st) in
      if layer_present && bool_decide (layer_hashes st !! name = Some hash_val) then
        pushInfo ("Layer '" +:+ name +:+ "' no changes found.")
      else
        created <- create_layer_from_content content name ;;
        match created with
        | Some layer =>
            if isValid layer then
              (if layer_present then
                 match find (fun lyr => String.eqb (Qgis.name lyr) name) (project st) with
                 | Some lyr => removeMapLayer (layer_id lyr)
                 | None => ret tt
                 end
               else ret tt) >>
              addMapLayer layer >>
              connect_sync_signal layer url token >>
              modify (fun st => set_layer_hashes (<[name := hash_val]> (layer_hashes st)) st) >>
              pushInfo ("Layer '" +:+ name +:+ "' updated.")
            else pushCritical ("Failed to reload layer '" +:+ name +:+ "'.")
        | None => pushCritical ("Failed to reload layer '" +:+ name +:+ "'.")
        end
  end.


(** *** The signals of a layer's edit session, and the lambdas that
    [connect_sync_signal] attached to them.  [layer] is the emitting
    layer as it is when the signal fires. *)
Inductive Signal :=
| featureAdded (fid : Z)
| featureDeleted (fid : Z)
| geometryChanged (fid : Z)
| attributeValueChanged (fid : Z)
| editingStopped.

Definition slot (layer : Layer) (url token : string) (sig : Signal) : M unit :=
  match sig with
  | featureAdded fid =>
      modify (fun st => set_diff (_edited_features st,
                                  dict_set fid (getFeature layer fid) (_added_features st),
                                  _deleted_ids st) st)
  | featureDeleted fid =>
      modify (fun st => set_diff (_edited_features st, _added_features st,
                                  {[fid]} ∪ _deleted_ids st) st)
  | geometryChanged fid | attributeValueChanged fid =>
      modify (fun st => set_diff ({[fid]} ∪ _edited_features st, _added_features st,
                                  _deleted_ids st) st)
  | editingStopped => sync_layer_to_server layer url token
  end.

Definition emit (layer : Layer) (sig : Signal) : M unit :=
  st <- get ;;
  for_each (filter (fun c => bool_decide (c.1 = layer_id layer)) (connections st))
           (fun c => slot layer c.2.1 c.2.2 sig).

(** *** save_bookmarks (lines 370-374) *)
Definition save_bookmarks : M unit :=
  st <- get ;;
  let project_path := project_file st in
  if negb (truthy project_path) then ret tt
  else modify (set_settings (<["bookmarks/" +:+ project_path := Registry (layers st)]>
                               (settings st))).

(** *** delete_bookmark (lines 359-364) *)
Definition delete_bookmark (name : string) : M unit :=
  st <- get ;;
  if bool_decide (is_Some (dict_get name (layers st))) then
    modify (set_layers (dict_del name (layers st))) >>
    modify (fun st => set_layer_hashes (delete name (layer_hashes st)) st) >>
    save_bookmarks >>
    pushInfo ("Bookmark '" +:+ name +:+ "' deleted.")
  else ret tt.

(** *** refresh_layers (lines 366-368) *)
Definition refresh_layers : M unit :=
  st <- get ;;
  for_each (layers st)
           (fun entry => reload_layer entry.1
                           (default "" (dict_get "url" entry.2))
                           (default "" (dict_get "token" entry.2))).

(** *** load_bookmarks (lines 376-395) *)
Definition load_entry (entry : string * list (string * string)) : M unit :=
  let name := entry.1 in
  let url := default "" (dict_get "url" entry.2) in
  let token := default "" (dict_get "token" entry.2) in
  fetched <- get_geojson_hash url token ;;
  match fetched with
  | Some (hash_val, content) =>
      if truthy hash_val && negb (bool_decide (content = [])) then
        modify (fun st => set_layer_hashes (<[name := hash_val]> (layer_hashes st)) st) >>
        (created <- create_layer_from_content content name ;;
         match created with
         | Some layer =>
             if isValid layer then
               addMapLayer layer >> connect_sync_signal layer url token
             else ret tt
         | None => ret tt
         end)
      else ret tt
  | None => ret tt
  end.

Definition load_bookmarks : M unit :=
  st <- get ;;
  let project_path := project_file st in
  if negb (truthy project_path) then ret tt
  else
    let stored := default (Registry []) (settings st !! ("bookmarks/" +:+ project_path)) in
    try_exceptM
      (loaded <- lift (json_loads stored) ;;
       modify (set_layers loaded) >>
       for_each loaded load_entry)
      (fun e =>
         pushCritical ("Failed to load bookmarks: " +:+ exn_str e) >>
         modify (set_layers [])).

Definition on_project_loaded : M unit := load_bookmarks.

Definition on_project_closed : M unit :=
  modify (set_layers []) >> modify (set_layer_hashes ∅).

End Methods.

End GeoJsonViewer.

(* ===================================================================== *)
(** ** class SyncWorker: its own encoder (lines 60-71)                    *)
(* ===================================================================== *)

Module SyncWorker.

Definition _serialize_feature (layer : Layer) (feat : Feature) : Result PyData :=
  let geom := geometry feat in
  let props := attributes feat in
  Py.bind (GeoJsonViewer.serialize_properties layer props) (fun properties =>
  Ok (DDict [("type", DStr "Feature");
             ("geometry", asJson geom);
             ("properties", DDict properties)])).

(** [SyncWorker.convert_variant] (lines 73-79), the same text as the
    viewer's. *)
Definition convert_variant (val : PyVal) : Result PyObj :=
  let val := match val with QVariant o => Bare o | _ => val end in
  let val := match val with HasToPyObject o | Bare o | QVariant o => o end in
  match val with
  | PyDate d => Ok (PyStr (Qt.toString_yyyy_MM_dd d))
  | PyStr _ | PyInt _ | PyFloat _ | PyBool _ | PyNone => Ok val
  | PyOther str =>
      try_except (Py.bind str (fun s => Ok (PyStr s))) (fun _ => Ok PyNone)
  end.

(** The attributes a worker is constructed with (lines 19-27). *)
Record Worker := {
  layer : Layer;
  url : string;
  token : string;
  edited_features : gset Z;
  added_features : list (Z * Feature);
  deleted_ids : gset Z
}.

Definition tagged (l : Layer) (mode : string) (feat : Feature) : Result PyData :=
  Py.bind (_serialize_feature l feat) (GeoJsonViewer.set_item "__mode" (DStr mode)).

Definition features (w : Worker) : Result (list PyData) :=
  Py.bind (GeoJsonViewer.mapR (fun fid => tagged (layer w) "update" (getFeature (layer w) fid))
                (elements (edited_features w))) (fun updates =>
  Py.bind (GeoJsonViewer.mapR (fun kv => tagged (layer w) "add" kv.2) (added_features w)) (fun adds =>
  Ok (updates ++ adds))).

(** *** run (lines 29-58).  The worker touches the network and its
    [finished] signal only: [run] maps the requests sent so far to the
    requests sent after it, with the signals it emitted. *)
Definition run (env : Env) (w : Worker) (log : list Request)
  : list Request * list (string * string) :=
  let changed_ids : gset Z := edited_features w ∪ list_to_set (dict_keys (added_features w)) in
  if decide (changed_ids = ∅) then (log, [("info", "No changes to sync.")])
  else
    match features w with
    | Raise e => (log, [("error", "Sync error: " +:+ exn_str e)])
    | Ok fs =>
        let payload := DDict [("type", DStr "FeatureCollection"); ("features", DList fs)] in
        let headers := [("Authorization", "Bearer " +:+ token w);
                        ("Content-Type", "application/json")] in
        let req := POST (url w) headers payload in
        match send env log req with
        | Raise e => (log ++ [req], [("error", "Sync error: " +:+ exn_str e)])
        | Ok response =>
            if status_code response =? 200 then
              match GeoJsonViewer.success_message response with
              | Ok msg => (log ++ [req], [("success", msg)])
              | Raise e => (log ++ [req], [("error", "Sync error: " +:+ exn_str e)])
              end
            else (log ++ [req], [("error", "Sync failed: " +:+ pretty (status_code response))])
        end
    end.

End SyncWorker.

Import GeoJsonViewer.

(* ===================================================================== *)
(** ** GeoJsonViewer.run: the dialog "Add Real-Time GeoJSON Layer"        *)
(* ===================================================================== *)

Module Dialog.

(** [str.strip] and [str.lower] of Python, taken as they are. *)
Record StrOps := {
  strip : string -> string;
  lower : string -> string
}.

(** [s.split(sep)] for a separator that is not empty: the text is cut at
    each occurrence of [sep], found from the left, occurrences not
    overlapping.  [skip] counts the characters of a found separator still
    to pass, [cur] is the piece being read. *)
Fixpoint split_from (sep : string) (skip : nat) (cur : string) (s : string) : list string :=
  match s with
  | EmptyString => [cur]
  | String c s' =>
      match skip with
      | S k => split_from sep k cur s'
      | O =>
          if String.prefix sep s
          then cur :: split_from sep (String.length sep - 1) "" s'
          else split_from sep O (cur +:+ String c "") s'
      end
  end.

Definition split (sep : string) (s : string) : list string := split_from sep O "" s.

(** The text of an item of the bookmarks list, [f"{name} → {url}"]; the
    arrow is U+2192, three bytes in UTF-8. *)
Definition arrow : string := " → ".

Definition item_text (name url : string) : string := name +:+ arrow +:+ url.

Inductive Box :=
| warning (title text : string)
| critical (title text : string).

(** The dialog of [run] and what it reaches: the plugin, its timer (the
    interval it was last started with, in milliseconds), the message boxes
    shown and the items of the bookmarks list. *)
Record Ui := {
  viewer : State;
  timer : option Z;
  boxes : list Box;
  bookmarks : list string
}.

(** The input widgets when "Add Layer" is clicked. *)
Record Form := {
  url_input : string;
  name_input : string;
  token_input : string;
  refresh_input : Z
}.

Definition U (A : Type) : Type := Ui -> Result A * Ui.


Definition bindU {A B} (m : U A) (k : A -> U B) : U B :=
  fun ui => match m ui with
            | (Ok a, ui') => k a ui'
            | (Raise e, ui') => (Raise e, ui')
            end.

(** A method of the plugin, called from the dialog. *)
Definition call {A} (m : M A) : U A :=
  fun ui => let (r, st) := m (viewer ui) in
            (r, {| viewer := st; timer := timer ui; boxes := boxes ui;
                   bookmarks := bookmarks ui |}).

Definition show (b : Box) : U unit :=
  fun ui => (Ok tt, {| viewer := viewer ui; timer := timer ui; boxes := boxes ui ++ [b];
                       bookmarks := bookmarks ui |}).

Definition timer_start (interval : Z) : U unit :=
  fun ui => (Ok tt, {| viewer := viewer ui; timer := Some interval; boxes := boxes ui;
                       bookmarks := bookmarks ui |}).

Definition addItem (text : string) : U unit :=
  fun ui => (Ok tt, {| viewer := viewer ui; timer := timer ui; boxes := boxes ui;
                       bookmarks := bookmarks ui ++ [text] |}).

Notation "x <-- m ;; k" := (bindU m (fun x => k))
  (at level 100, m at next level, right associativity).
Notation "m >>> k" := (bindU m (fun _ => k))
  (at level 100, right associativity).

Definition getU : U Ui := fun ui => (Ok ui, ui).

Section Run.
Context (ops : StrOps) (env : Env).

(** *** on_add (lines 167-199) *)
Definition on_add (form : Form) : U unit :=
  let url := strip ops (url_input form) in
  let name := if truthy (strip ops (name_input form)) then strip ops (name_input form)
              else "RealtimeLayer" in
  let token := strip ops (token_input form) in
  let interval := refresh_input form * 1000 in
  if negb (truthy url) then
    show (warning "Input Error" "Please provide a GeoJSON URL.")
  else if negb (String.prefix "https://" (lower ops url)) then
    show (warning "Invalid URL" "Only HTTPS URLs are allowed.")
  else
    ui <-- getU ;;
    if bool_decide (is_Some (dict_get name (layers (viewer ui)))) then
      show (warning "Duplicate Layer" ("Layer '" +:+ name +:+ "' already exists."))
    else
      fetched <-- call (get_geojson_hash env url token) ;;
      match fetched with
      | None => show (critical "GeoJSON Viewer" "Failed to download or parse layer.")
      | Some (hash_val, content) =>
          created <-- call (create_layer_from_content env content name) ;;
          match created with
          | Some layer =>
              if isValid layer then
                call (addMapLayer layer) >>>
                call (connect_sync_signal layer url token) >>>
                call (modify (fun st =>
                        set_layers (dict_set name [("url", url); ("token", token)] (layers st))
                                   st)) >>>
                call (modify (fun st =>
                        set_layer_hashes (<[name := hash_val]> (layer_hashes st)) st)) >>>
                call save_bookmarks >>>
                timer_start interval >>>
                addItem (item_text name url) >>>
                call (pushInfo ("Layer '" +:+ name +:+ "' added successfully."))
              else call (pushCritical "Failed to load layer from content.")
          | None => call (pushCritical "Failed to load layer from content.")
          end
      end.





End Run.

(** The items the dialog shows when it opens (lines 164-165);
    [config['url']] raises KeyError when the entry has no URL. *)
Definition initial_items (st : State) : Result (list string) :=
  mapR (fun entry =>
          match dict_get "url" entry.2 with
          | Some url => Ok (item_text entry.1 url)
          | None => Raise (KeyError "url")
          end)
       (layers st).

End Dialog.

(* ===================================================================== *)
(** ** Vocabulary of the statements, and a small world to run the code in *)
(* ===================================================================== *)

(** The GET that [get_geojson_hash] sends. *)
Definition get_request (url token : string) : Request :=
  GET url (if truthy token then [("Authorization", "Bearer " +:+ token)] else []).

(** What [get_geojson_hash] makes of the answer. *)
Definition fetch_result (r : Result Response) : option (string * list Byte.byte) :=
  match r with
  | Ok response =>
      if status_code response =? 200
      then Some (Hashlib.md5_hexdigest (content response), content response)
      else None
  | Raise _ => None
  end.

(** The headers and the body of the POST of [sync_layer_to_server]. *)
Definition upload_headers (token : string) : list (string * string) :=
  [("Authorization", "Bearer " +:+ token); ("Content-Type", "application/json")].

Definition upload_payload (features : list PyData) : PyData :=
  DDict [("type", DStr "FeatureCollection"); ("features", DList features)].

(** The number a string of decimal digits writes; [None] when a character
    is no digit or the string is empty. *)
Definition digit_value (c : ascii) : option Z :=
  let n := Z.of_N (N_of_ascii c) in
  if (48 <=? n) && (n <=? 57) then Some (n - 48) else None.

Fixpoint read_decimal_from (acc : Z) (s : string) : option Z :=
  match s with
  | EmptyString => Some acc
  | String c s' =>
      match digit_value c with
      | Some v => read_decimal_from (10 * acc + v) s'
      | None => None
      end
  end.

Definition read_decimal (s : string) : option Z :=
  match s with
  | EmptyString => None
  | _ => read_decimal_from 0 s
  end.

Module Example.

Definition lake_a : Feature :=
  {| geometry := {| wkb_display := "Point";
                    asJson := DDict [("type", DStr "Point");
                                     ("coordinates", DList [DVal (PyInt 1); DVal (PyInt 2)])] |};
     attributes := [Bare (PyStr "Lake A")] |}.


Definition lakes : Layer :=
  {| layer_id := 0; name := "lakes"; isValid := true; fields := ["name"];
     features := {[ 42 := lake_a ]};
     hidden_widgets := []; hiddenFields := [] |}.


Definition rivers : Layer :=
  {| layer_id := 1; name := "rivers"; isValid := true; fields := ["name"];
     features := ∅; hidden_widgets := []; hiddenFields := [] |}.

Definition body : list Byte.byte := bytes_of "{}".

Definition answer (status : Z) : Response :=
  {| status_code := status; content := body;
     json := Ok (DDict [("message", DStr "ok")]) |}.

Definition ogr (valid : bool) : OgrData :=
  {| ogr_valid := valid; ogr_fields := ["name"]; ogr_features := {[ 42 := lake_a ]} |}.

(** A server that answers every request with [status]. *)
Definition server (status : Z) (valid : bool) : Env :=
  {| send := fun _ _ => Ok (answer status); ogr_open := fun _ => Ok (ogr valid) |}.

(** A network that is down. *)
Definition offline : Env :=
  {| send := fun _ _ => Raise (Exception "ConnectionError");
     ogr_open := fun _ => Ok (ogr true) |}.

Definition start : State :=
  {| layers := [("lakes", [("url", "https://x/lakes.json"); ("token", "")]);
                ("rivers", [("url", "https://x/rivers.json"); ("token", "s3cret")])];
     layer_hashes := ∅;
     _edited_features := ∅; _added_features := []; _deleted_ids := ∅;
     settings := ∅; project_file := "/home/u/map.qgz";
     project := [lakes; rivers];
     connections := [(0%nat, ("https://x/lakes.json", ""));
                     (1%nat, ("https://x/rivers.json", "s3cret"))];
     message_bar := []; http_log := []; next_layer_id := 2 |}.

(** Feature 42 was added to [lakes] in the running edit session. *)
Definition added_42 : State :=
  exec (emit (server 200 true) lakes (featureAdded 42)) start.

End Example.

(** A member of an encoded feature, and the features of an upload. *)
Definition feature_member (key : string) (feature : PyData) : option PyData :=
  match feature with
  | DDict d => dict_get key d
  | _ => None
  end.

Definition payload_features (r : Request) : list PyData :=
  match r with
  | POST _ _ (DDict d) =>
      match dict_get "features" d with
      | Some (DList fs) => fs
      | _ => []
      end
  | _ => []
  end.

(** An edit of a feature: its geometry or one of its attributes changed. *)
Definition is_edit (sig : Signal) (fid : Z) : Prop :=
  sig = geometryChanged fid \/ sig = attributeValueChanged fid.

(** The value of the Authorization header of a request, if it has one. *)
Definition authorization (r : Request) : option string :=
  dict_get "Authorization" (request_headers r).

(** [any(lyr.name() == name for lyr in ...mapLayers().values())] *)
Definition layer_present (name : string) (st : State) : bool :=
  existsb (fun lyr => String.eqb (Qgis.name lyr) name) (project st).

(** The layer [create_layer_from_content] builds from valid OGR data. *)
Definition new_layer (id : nat) (name : string) (ogr : OgrData) : Layer :=
  hide_id_fields {| layer_id := id; name := name; isValid := ogr_valid ogr;
                    fields := ogr_fields ogr; features := ogr_features ogr;
                    hidden_widgets := []; hiddenFields := [] |}.

(** The GET that [load_bookmarks] sends for a registry entry. *)
Definition entry_request (entry : string * list (string * string)) : Request :=
  get_request (default "" (dict_get "url" entry.2)) (default "" (dict_get "token" entry.2)).

(** The upload of the added feature 42 of [lakes]. *)
Definition lakes_upload : Request :=
  POST "https://x/lakes.json" (upload_headers "")
    (upload_payload [DDict [("type", DStr "Point");
                            ("geometry", asJson (geometry Example.lake_a));
                            ("properties", DDict [("name", DStr "Lake A")]);
                            ("__mode", DStr "add")]]).

(** A server that answers 404 for [lakes] and 200 for the rest. *)
Definition picky_server : Env :=
  {| send := fun _ req =>
       match req with
       | GET "https://x/lakes.json" _ => Ok (Example.answer 404)
       | _ => Ok (Example.answer 200)
       end;
     ogr_open := fun _ => Ok (Example.ogr true) |}.

(** The registry of two entries is saved for the project; nothing is
    loaded yet. *)
Definition saved : State :=
  set_settings {[ "bookmarks//home/u/map.qgz" := Registry (layers Example.start) ]}
    (set_project [] [] (set_layers [] Example.start)).

(* ===================================================================== *)
(** ** Vocabulary of the further properties                               *)
(* ===================================================================== *)

(** [None], a string, a boolean or a number: what is neither a [QDate]
    nor another object. *)
Definition primitive (o : PyObj) : bool :=
  match o with
  | PyNone | PyStr _ | PyBool _ | PyInt _ | PyFloat _ => true
  | PyDate _ | PyOther _ => false
  end.

(** The value [convert_variant] returns. *)
Definition converted (val : PyVal) : PyObj :=
  match convert_variant val with
  | Ok o => o
  | Raise _ => PyNone
  end.

(** A state with one more message on the bar. *)
Definition pushed (lvl : Level) (text : string) (st : State) : State :=
  set_message_bar (message_bar st ++ [(lvl, text)]) st.

Definition changed_ids (st : State) : gset Z :=
  _edited_features st ∪ list_to_set (dict_keys (_added_features st)).

(** The project once [reload_layer] has taken out the layer of the name
    that its search finds, and the wiring that is left.  [mapLayers()] is
    keyed by layer identifier, and the list [project] keeps the layers in
    the order they were added: when several layers have the name, which
    one the search finds first is not fixed by this list, so the
    properties of a replacement are stated for a name that one layer
    holds. *)
Definition without_first_named (name : string) (st : State) : list Layer :=
  match find (fun lyr => String.eqb (Qgis.name lyr) name) (project st) with
  | Some old => filter (fun lyr => bool_decide (layer_id lyr <> layer_id old)) (project st)
  | None => project st
  end.

Definition wiring_without_first_named (name : string) (st : State)
  : list (nat * (string * string)) :=
  match find (fun lyr => String.eqb (Qgis.name lyr) name) (project st) with
  | Some old => filter (fun c => bool_decide (c.1 <> layer_id old)) (connections st)
  | None => connections st
  end.

(** A fetch that gave nothing: no answer, or an answer of another status
    than 200. *)
Definition fetch_failed (r : Result Response) : Prop :=
  match r with
  | Ok response => status_code response <> 200
  | Raise _ => True
  end.

(** The settings key of the registry of the open project. *)
Definition bookmarks_key (st : State) : string := "bookmarks/" +:+ project_file st.

(** The worker that would be made for a sync of [layer] in state [st]. *)
Definition worker_of (layer : Layer) (url token : string) (st : State) : SyncWorker.Worker :=
  {| SyncWorker.layer := layer; SyncWorker.url := url; SyncWorker.token := token;
     SyncWorker.edited_features := _edited_features st;
     SyncWorker.added_features := _added_features st;
     SyncWorker.deleted_ids := _deleted_ids st |}.

(** An encoded feature with "Feature" under "type". *)
Definition retyped (feature : PyData) : PyData :=
  match feature with
  | DDict d => DDict (dict_set "type" (DStr "Feature") d)
  | _ => feature
  end.


(** The name the dialog takes for a form. *)
Definition form_name (ops : Dialog.StrOps) (form : Dialog.Form) : string :=
  if truthy (Dialog.strip ops (Dialog.name_input form))
  then Dialog.strip ops (Dialog.name_input form)
  else "RealtimeLayer".

(** The dialog with another plugin state, and with one more box. *)
Definition with_viewer (st : State) (ui : Dialog.Ui) : Dialog.Ui :=
  {| Dialog.viewer := st; Dialog.timer := Dialog.timer ui; Dialog.boxes := Dialog.boxes ui;
     Dialog.bookmarks := Dialog.bookmarks ui |}.

Definition with_box (b : Dialog.Box) (ui : Dialog.Ui) : Dialog.Ui :=
  {| Dialog.viewer := Dialog.viewer ui; Dialog.timer := Dialog.timer ui;
     Dialog.boxes := Dialog.boxes ui ++ [b]; Dialog.bookmarks := Dialog.bookmarks ui |}.


(** ** More of the small world *)

(** A server that answers 200 with a body that is not JSON, and one that
    answers 200 with an empty JSON object. *)
Definition garbled_server : Env :=
  {| send := fun _ _ => Ok {| status_code := 200; content := bytes_of "<html>";
                              json := Raise (Exception "JSONDecodeError") |};
     ogr_open := fun _ => Ok (Example.ogr true) |}.

Definition quiet_server : Env :=
  {| send := fun _ _ => Ok {| status_code := 200; content := Example.body;
                              json := Ok (DDict []) |};
     ogr_open := fun _ => Ok (Example.ogr true) |}.

(** A server whose collection has an "id" field. *)
Definition id_server : Env :=
  {| send := fun _ _ => Ok (Example.answer 200);
     ogr_open := fun _ => Ok {| ogr_valid := true; ogr_fields := ["id"; "name"];
                                ogr_features := ∅ |} |}.

(** A feature with two attributes, one more than [lakes] has fields. *)
Definition wide_feature : Feature :=
  {| geometry := null_geometry; attributes := [Bare (PyInt 7); Bare (PyStr "Lake C")] |}.

Definition added_wide : State :=
  set_diff (∅, [(43, wide_feature)], ∅) Example.start.

(** [strip] and [lower] on ASCII text. *)
Definition is_space (c : ascii) : bool :=
  let n := nat_of_ascii c in
  ((9 <=? n) && (n <=? 13) || (28 <=? n) && (n <=? 32))%nat.

Fixpoint lstrip (s : string) : string :=
  match s with
  | String c s' => if is_space c then lstrip s' else s
  | EmptyString => EmptyString
  end.

Fixpoint rstrip (s : string) : string :=
  match s with
  | String c s' =>
      match rstrip s' with
      | EmptyString => if is_space c then EmptyString else String c EmptyString
      | t => String c t
      end
  | EmptyString => EmptyString
  end.

Definition lower_char (c : ascii) : ascii :=
  let n := nat_of_ascii c in
  if ((65 <=? n) && (n <=? 90))%nat then ascii_of_nat (n + 32) else c.

Fixpoint lower_ascii (s : string) : string :=
  match s with
  | String c s' => String (lower_char c) (lower_ascii s')
  | EmptyString => EmptyString
  end.

Definition ascii_ops : Dialog.StrOps :=
  {| Dialog.strip := fun s => rstrip (lstrip s); Dialog.lower := lower_ascii |}.

(** The dialog, opened on the example. *)
Definition dialog : Dialog.Ui :=
  {| Dialog.viewer := Example.start; Dialog.timer := None; Dialog.boxes := [];
     Dialog.bookmarks := ["lakes → https://x/lakes.json"; "rivers → https://x/rivers.json"] |}.

Definition ponds_form : Dialog.Form :=
  {| Dialog.url_input := "  HTTPS://x/ponds.json "; Dialog.name_input := " ponds";
     Dialog.token_input := ""; Dialog.refresh_input := 30 |}.

Definition plain_http_form : Dialog.Form :=
  {| Dialog.url_input := "http://x/ponds.json"; Dialog.name_input := "ponds";
     Dialog.token_input := ""; Dialog.refresh_input := 30 |}.

(* ===================================================================== *)
(** ** Checks of the models of Qt and hashlib                             *)
(* ===================================================================== *)

Example md5_empty : Hashlib.md5_hexdigest [] = "d41d8cd98f00b204e9800998ecf8427e".
Proof. vm_compute. reflexivity. Qed.

Example md5_abc : Hashlib.md5_hexdigest (bytes_of "abc") = "900150983cd24fb0d6963f7d28e17f72".
Proof. vm_compute. reflexivity. Qed.

Example md5_two_chunks :
  Hashlib.md5_hexdigest (repeat x61 70) = "0f5c6c4e740bfcc08c3c26ccb2673d46".
Proof. vm_compute. reflexivity. Qed.

Example date_iso : Qt.toString_yyyy_MM_dd {| year := 2024; month := 2; day := 29 |} = "2024-02-29".
Proof. vm_compute. reflexivity. Qed.

(* ===================================================================== *)
(** ** Basic facts                                                        *)
(* ===================================================================== *)

Lemma length_append (s t : string) :
  String.length (s +:+ t) = (String.length s + String.length t)%nat.
Proof. induction s as [|c s IH]; simpl; [reflexivity | now rewrite IH]. Qed.

Lemma digits_length (w : nat) (n : Z) : String.length (Qt.digits w n) = w.
Proof.
  revert n. induction w as [|w IH]; intros n; simpl; [reflexivity|].
  rewrite length_append, IH. simpl. lia.
Qed.

(** A valid date of the years 1 to 9999 is rendered as ten characters:
    four digits of the year, two of the month, two of the day, with a dash
    after the year and after the month. *)
Lemma toString_shape (d : QDate) :
  Qt.isValid d = true -> 1 <= year d <= 9999 ->
  Qt.toString_yyyy_MM_dd d
    = Qt.digits 4 (year d) +:+ "-" +:+ Qt.digits 2 (month d) +:+ "-" +:+ Qt.digits 2 (day d)
  /\ String.length (Qt.toString_yyyy_MM_dd d) = 10%nat.
Proof.
  intros Hv Hy. unfold Qt.toString_yyyy_MM_dd, Qt.yyyy. rewrite Hv.
  destruct (Z.ltb_spec (year d) 0) as [?|_]; [lia|].
  rewrite Z.abs_eq by lia.
  destruct (Z.ltb_spec (year d) 10000) as [_|?]; [|lia].
  split; [reflexivity|].
  rewrite !length_append, !digits_length. reflexivity.
Qed.

(** Reading back what [Qt.digits] wrote. *)
Lemma append_cons (c : ascii) (s t : string) : String c s +:+ t = String c (s +:+ t).
Proof. reflexivity. Qed.

Lemma read_decimal_from_append (acc : Z) (s t : string) :
  read_decimal_from acc (s +:+ t)
  = match read_decimal_from acc s with
    | Some a => read_decimal_from a t
    | None => None
    end.
Proof.
  revert acc. induction s as [|c s IH]; intros acc; [reflexivity|].
  rewrite append_cons. simpl. destruct (digit_value c); [apply IH | reflexivity].
Qed.

Lemma read_digit (acc n : Z) :
  read_decimal_from acc (Qt.digit n) = Some (10 * acc + n mod 10).
Proof.
  unfold Qt.digit.
  assert (Hk : 0 <= n mod 10 < 10) by (apply Z.mod_pos_bound; lia).
  set (k := n mod 10) in *.
  assert (Hcases : k = 0 \/ k = 1 \/ k = 2 \/ k = 3 \/ k = 4 \/ k = 5 \/ k = 6 \/ k = 7
                   \/ k = 8 \/ k = 9) by lia.
  destruct Hcases as [->|[->|[->|[->|[->|[->|[->|[->|[->| ->]]]]]]]]]; reflexivity.
Qed.

Lemma read_digits (w : nat) (acc n : Z) :
  read_decimal_from acc (Qt.digits w n) = Some (acc * 10 ^ Z.of_nat w + n mod 10 ^ Z.of_nat w).
Proof.
  revert acc n. induction w as [|w IH]; intros acc n.
  - simpl. rewrite Z.mod_1_r. f_equal. lia.
  - cbn [Qt.digits]. rewrite read_decimal_from_append, IH, read_digit. f_equal.
    rewrite Nat2Z.inj_succ, Z.pow_succ_r by lia.
    rewrite (Z.rem_mul_r n 10 (10 ^ Z.of_nat w)) by lia. lia.
Qed.

Lemma read_decimal_digits (w : nat) (n : Z) :
  (0 < w)%nat -> 0 <= n < 10 ^ Z.of_nat w ->
  read_decimal (Qt.digits w n) = Some n.
Proof.
  intros Hw Hn. unfold read_decimal.
  destruct (Qt.digits w n) eqn:Hd.
  - apply (f_equal String.length) in Hd. rewrite digits_length in Hd. simpl in Hd. lia.
  - rewrite <- Hd, read_digits, Z.mod_small by assumption. f_equal.
Qed.

Lemma isValid_bounds (d : QDate) :
  Qt.isValid d = true -> 1 <= month d <= 12 /\ 1 <= day d <= 31.
Proof.
  unfold Qt.isValid, Qt.days_in_month. intros H.
  repeat (apply andb_prop in H; destruct H as [H ?]).
  repeat match goal with
         | H : (_ <=? _) = true |- _ => apply Z.leb_le in H
         end.
  split; [lia|]. split; [lia|].
  destruct (month d =? 2); [destruct (Qt.is_leap _); lia|].
  destruct (_ || _); lia.
Qed.

(** The fetcher never raises: it sends one GET and turns every failure
    into [None]. *)
Lemma get_geojson_hash_run (env : Env) (url token : string) (st : State) :
  get_geojson_hash env url token st
  = (Ok (fetch_result (send env (http_log st) (get_request url token))),
     set_http_log (http_log st ++ [get_request url token]) st).
Proof.
  unfold get_geojson_hash, try_exceptM, bindM, request, get_request, fetch_result.
  destruct (send env (http_log st) _) as [response|e]; simpl; [|reflexivity].
  destruct (status_code response =? 200); reflexivity.
Qed.

(* ===================================================================== *)
(** ** The encoder's value coercion                                       *)
(* ===================================================================== *)

(** C4, as the code has it.  [convert_variant] passes strings, booleans,
    numbers and [None] through unchanged.  It renders a valid [QDate] of the
    years 1 to 9999 as YYYY-MM-DD: four digits that read as the year, a
    dash, two digits that read as the month, a dash, two digits that read
    as the day; an invalid [QDate] it renders as the empty string.  It
    stringifies every other object, gives [None] when [str] raises, and
    returns a value on every input, wrapped (in a [QVariant], or behind
    [toPyObject]) or not. *)
Theorem convert_variant_cases :
  (forall s, convert_variant (Bare (PyStr s)) = Ok (PyStr s))
  /\ (forall b, convert_variant (Bare (PyBool b)) = Ok (PyBool b))
  /\ (forall n, convert_variant (Bare (PyInt n)) = Ok (PyInt n))
  /\ (forall x, convert_variant (Bare (PyFloat x)) = Ok (PyFloat x))
  /\ convert_variant (Bare PyNone) = Ok PyNone
  /\ (forall d, Qt.isValid d = true -> 1 <= year d <= 9999 ->
        exists yyyy mm dd,
          convert_variant (Bare (PyDate d)) = Ok (PyStr (yyyy +:+ "-" +:+ mm +:+ "-" +:+ dd))
          /\ String.length yyyy = 4%nat /\ String.length mm = 2%nat
          /\ String.length dd = 2%nat
          /\ read_decimal yyyy = Some (year d)
          /\ read_decimal mm = Some (month d)
          /\ read_decimal dd = Some (day d))
  /\ (forall d, Qt.isValid d = false -> convert_variant (Bare (PyDate d)) = Ok (PyStr ""))
  /\ (forall s, convert_variant (Bare (PyOther (Ok s))) = Ok (PyStr s))
  /\ (forall e, convert_variant (Bare (PyOther (Raise e))) = Ok PyNone)
  /\ (forall o, convert_variant (QVariant o) = convert_variant (Bare o))
  /\ (forall o, convert_variant (HasToPyObject o) = convert_variant (Bare o))
  /\ (forall val, exists o, convert_variant val = Ok o).
Proof.
  do 5 (split; [reflexivity|]).
  split.
  { intros d Hvalid Hyear.
    destruct (isValid_bounds d Hvalid) as [Hmonth Hday].
    exists (Qt.digits 4 (year d)), (Qt.digits 2 (month d)), (Qt.digits 2 (day d)).
    split.
    - unfold convert_variant, Qt.toString_yyyy_MM_dd, Qt.yyyy. rewrite Hvalid.
      destruct (Z.ltb_spec (year d) 0) as [?|_]; [lia|].
      rewrite Z.abs_eq by lia.
      destruct (Z.ltb_spec (year d) 10000) as [_|?]; [reflexivity | lia].
    - rewrite !digits_length, !read_decimal_digits by (simpl; lia).
      repeat split; reflexivity. }
  split.
  { intros d Hinvalid. unfold convert_variant, Qt.toString_yyyy_MM_dd.
    now rewrite Hinvalid. }
  do 4 (split; [reflexivity|]).
  intros [o|o|o]; destruct o as [| | | | | |[s|e]]; simpl; eauto.
Qed.

(** C4, as the claim has it, fails.  The 29th of February 2023 is no date
    and is rendered as the empty string; the 7th of June 12345 is rendered
    with five digits for the year.  Neither string has the ten characters
    of YYYY-MM-DD. *)
Lemma date_not_always_iso :
  convert_variant (Bare (PyDate {| year := 2023; month := 2; day := 29 |})) = Ok (PyStr "")
  /\ convert_variant (Bare (PyDate {| year := 12345; month := 6; day := 7 |}))
     = Ok (PyStr "12345-06-07")
  /\ String.length "" <> 10%nat
  /\ String.length "12345-06-07" <> 10%nat.
Proof. vm_compute. repeat split; discriminate. Qed.

(* ===================================================================== *)
(** ** Upload                                                             *)
(* ===================================================================== *)

Lemma log_not_extended {A} (l : list A) (x : A) : l <> l ++ [x].
Proof.
  intros H. apply (f_equal (@length A)) in H. rewrite length_app in H. simpl in H. lia.
Qed.

Lemma log_extended_inj {A} (l : list A) (x y : A) : l ++ [x] = l ++ [y] -> x = y.
Proof. intros H. apply app_inv_head in H. congruence. Qed.

(** What one run of [sync_layer_to_server] does, case by case. *)
Lemma sync_layer_to_server_run (env : Env) (layer : Layer) (url token : string) (st : State) :
  let st' := exec (sync_layer_to_server env layer url token) st in
  (http_log st' = http_log st /\ diff st' = diff st)
  \/ exists features,
       sync_features layer st = Ok features
       /\ http_log st' = http_log st ++ [POST url (upload_headers token) (upload_payload features)]
       /\ match send env (http_log st) (POST url (upload_headers token) (upload_payload features)) with
          | Ok response =>
              if status_code response =? 200 then diff st' = empty_diff else diff st' = diff st
          | Raise _ => diff st' = diff st
          end.
Proof.
  unfold exec, sync_layer_to_server, try_exceptM, bindM, get, lift, request.
  destruct (decide _) as [Hempty|Hne]; [left; split; reflexivity|].
  destruct (sync_features layer st) as [features|e] eqn:Hf; [|left; split; reflexivity].
  right. exists features. split; [reflexivity|].
  fold (upload_headers token). fold (upload_payload features).
  destruct (send env (http_log st) _) as [response|e]; simpl; [|split; reflexivity].
  destruct (status_code response =? 200); simpl; [|split; reflexivity].
  destruct (success_message response); simpl; split; reflexivity.
Qed.

(** C1.  An upload never clears the diff in part.  The run sends at most
    one request; when it sent one, the diff is empty afterwards if the
    answer has status 200 and is the diff of before if the answer has
    another status or the call raised; when it sent none, the diff is the
    diff of before. *)
Theorem sync_diff_all_or_nothing (env : Env) (layer : Layer) (url token : string) (st : State) :
  let st' := exec (sync_layer_to_server env layer url token) st in
  (diff st' = empty_diff \/ diff st' = diff st)
  /\ (http_log st' = http_log st -> diff st' = diff st)
  /\ (forall req, http_log st' = http_log st ++ [req] ->
        match send env (http_log st) req with
        | Ok response =>
            if status_code response =? 200 then diff st' = empty_diff else diff st' = diff st
        | Raise _ => diff st' = diff st
        end)
  /\ (http_log st' = http_log st
      \/ exists features,
           http_log st' = http_log st
                          ++ [POST url (upload_headers token) (upload_payload features)]).
Proof.
  intros st'. subst st'.
  destruct (sync_layer_to_server_run env layer url token st)
    as [[Hlog Hdiff]|(features & _ & Hlog & Hout)].
  - repeat split; auto.
    intros req Hreq. rewrite Hlog in Hreq. now apply log_not_extended in Hreq.
  - repeat split.
    + destruct (send env _ _) as [response|e]; [destruct (status_code response =? 200)|]; auto.
    + intros Heq. rewrite Hlog in Heq. symmetry in Heq. now apply log_not_extended in Heq.
    + intros req Hreq. rewrite Hlog in Hreq. apply log_extended_inj in Hreq. now subst req.
    + right. eauto.
Qed.

(** C7.  With no edited and no added identifier the sync reports "No changes
    to sync." and does nothing else: no request, and every part of the
    state but the message bar is as before. *)
Theorem sync_without_changes (env : Env) (layer : Layer) (url token : string) (st : State) :
  _edited_features st ∪ list_to_set (dict_keys (_added_features st)) = (∅ : gset Z) ->
  sync_layer_to_server env layer url token st
  = (Ok tt, set_message_bar (message_bar st ++ [(Info, "No changes to sync.")]) st).
Proof.
  intros Hempty.
  unfold sync_layer_to_server, try_exceptM, bindM, get.
  destruct (decide _) as [_|Hne]; [reflexivity | contradiction].
Qed.

Example added_42_diff : diff Example.added_42 = (∅, [(42, Example.lake_a)], ∅).
Proof. vm_compute. reflexivity. Qed.

Example upload_200_log :
  http_log (exec (sync_layer_to_server (Example.server 200 true) Example.lakes "https://x/lakes.json" "") Example.added_42)
  = [POST "https://x/lakes.json" (upload_headers "")
       (upload_payload [DDict [("type", DStr "Point"); ("geometry", asJson (geometry Example.lake_a));
                               ("properties", DDict [("name", DStr "Lake A")]);
                               ("__mode", DStr "add")]])].
Proof. vm_compute. reflexivity. Qed.

(** ** Ordered dicts *)

Lemma dict_get_set_eq {K V} `{EqDecision K} (k : K) (v : V) (d : list (K * V)) :
  dict_get k (dict_set k v d) = Some v.
Proof.
  induction d as [|[k' v'] d IH]; simpl.
  - destruct (decide (k = k)); congruence.
  - destruct (decide (k = k')) as [->|Hne]; simpl.
    + destruct (decide (k' = k')); congruence.
    + destruct (decide (k = k')); congruence.
Qed.

Lemma dict_get_set_ne {K V} `{EqDecision K} (k k0 : K) (v : V) (d : list (K * V)) :
  k0 <> k -> dict_get k0 (dict_set k v d) = dict_get k0 d.
Proof.
  intros Hne. induction d as [|[k' v'] d IH]; simpl.
  - destruct (decide (k0 = k)); congruence.
  - destruct (decide (k = k')) as [->|Hkk']; simpl.
    + destruct (decide (k0 = k')); congruence.
    + destruct (decide (k0 = k')); congruence.
Qed.

Lemma dict_keys_set_elem {K V} `{EqDecision K} (k k0 : K) (v : V) (d : list (K * V)) :
  In k0 (dict_keys (dict_set k v d)) <-> k0 = k \/ In k0 (dict_keys d).
Proof.
  unfold dict_keys. induction d as [|[k' v'] d IH]; simpl.
  - intuition.
  - destruct (decide (k = k')) as [->|Hne]; simpl; [intuition|].
    rewrite IH. intuition.
Qed.

Lemma dict_keys_set_NoDup {K V} `{EqDecision K} (k : K) (v : V) (d : list (K * V)) :
  List.NoDup (dict_keys d) -> List.NoDup (dict_keys (dict_set k v d)).
Proof.
  induction d as [|[k' v'] d IH]; simpl; intros Hnd.
  - constructor; [intros []|constructor].
  - inversion Hnd as [|? ? Hnotin Hnd']; subst.
    destruct (decide (k = k')) as [->|Hne]; simpl.
    + constructor; assumption.
    + constructor; [|now apply IH].
      intros Hin. apply (dict_keys_set_elem k k' v d) in Hin.
      destruct Hin as [Heq|Hin]; [congruence | now apply Hnotin].
Qed.

(** ** What the payload holds *)



(** The deleted set has no part in the payload. *)
Lemma sync_features_ignores_deleted (layer : Layer) (st : State) (deleted : gset Z) :
  sync_features layer (set_diff (_edited_features st, _added_features st, deleted) st)
  = sync_features layer st.
Proof. reflexivity. Qed.

(** Both encoders put the geometry and the properties in place; they
    differ in the "type" member. *)
Lemma _serialize_feature_type (layer : Layer) (feat : Feature) (d : PyData) :
  _serialize_feature layer feat = Ok d ->
  exists properties,
    d = DDict [("type", DStr (wkb_display (geometry feat)));
               ("geometry", asJson (geometry feat)); ("properties", DDict properties)]
    /\ SyncWorker._serialize_feature layer feat
       = Ok (DDict [("type", DStr "Feature");
                    ("geometry", asJson (geometry feat)); ("properties", DDict properties)]).
Proof.
  unfold _serialize_feature, SyncWorker._serialize_feature.
  destruct (serialize_properties layer (attributes feat)) as [properties|e]; simpl; [|discriminate].
  intros H. injection H as <-. eauto.
Qed.

(** C3.  Feature 42, a point, was added to the layer and the session ends:
    the upload is one FeatureCollection whose feature has mode "add", and
    its "type" member is "Point", the name of the geometry type, where the
    encoder of [SyncWorker] writes "Feature". *)
Theorem upload_feature_type_is_geometry_name :
  let st' := exec (emit (Example.server 200 true) Example.lakes editingStopped) Example.added_42 in
  http_log st'
  = [POST "https://x/lakes.json" (upload_headers "")
       (upload_payload [DDict [("type", DStr "Point");
                               ("geometry", asJson (geometry Example.lake_a));
                               ("properties", DDict [("name", DStr "Lake A")]);
                               ("__mode", DStr "add")]])]
  /\ map (feature_member "type") (flat_map payload_features (http_log st')) = [Some (DStr "Point")]
  /\ SyncWorker._serialize_feature Example.lakes Example.lake_a
     = Ok (DDict [("type", DStr "Feature");
                  ("geometry", asJson (geometry Example.lake_a));
                  ("properties", DDict [("name", DStr "Lake A")])]).
Proof. vm_compute. repeat split; reflexivity. Qed.

(* ===================================================================== *)
(** ** Change tracker                                                     *)
(* ===================================================================== *)




(* ===================================================================== *)
(** ** Authorization header                                               *)
(* ===================================================================== *)

(** C6, as the code has it.  The GET of the fetcher carries
    [Authorization: Bearer <token>] exactly when the token is not empty.
    The POST of the upload carries it always, for the empty token with the
    value "Bearer " and nothing after it. *)
Theorem authorization_header (env : Env) (layer : Layer) (url token : string) (st : State) :
  (exists req,
      http_log (exec (get_geojson_hash env url token) st) = http_log st ++ [req]
      /\ authorization req = if decide (token = "") then None else Some ("Bearer " +:+ token))
  /\ (forall req,
        http_log (exec (sync_layer_to_server env layer url token) st) = http_log st ++ [req] ->
        authorization req = Some ("Bearer " +:+ token)).
Proof.
  split.
  - exists (get_request url token). unfold exec. rewrite get_geojson_hash_run.
    split; [reflexivity|].
    unfold authorization, get_request, truthy.
    destruct (String.eqb_spec token "") as [->|Hne]; simpl.
    + reflexivity.
    + destruct (decide (token = "")); [contradiction | reflexivity].
  - intros req Hreq.
    destruct (sync_layer_to_server_run env layer url token st)
      as [[Hlog _]|(features & _ & Hlog & _)]; rewrite Hlog in Hreq.
    + now apply log_not_extended in Hreq.
    + apply log_extended_inj in Hreq. subst req. reflexivity.
Qed.

(** C6, as the claim has it, fails.  With the empty token the upload of
    feature 42 goes out with an Authorization header. *)
Lemma upload_with_empty_token_sends_authorization :
  map authorization
      (http_log (exec (sync_layer_to_server (Example.server 200 true) Example.lakes
                         "https://x/lakes.json" "")
                      Example.added_42))
  = [Some "Bearer "].
Proof. vm_compute. reflexivity. Qed.

(** The theorem at work: the GET for [lakes] (no token) has no header, the
    upload for it has one. *)
Lemma authorization_header_witness :
  map authorization
      (http_log (exec (get_geojson_hash (Example.server 200 true) "https://x/lakes.json" "")
                      Example.start))
  = [None]
  /\ forall req,
       http_log (exec (sync_layer_to_server (Example.server 200 true) Example.lakes
                         "https://x/lakes.json" "") Example.added_42)
       = http_log Example.added_42 ++ [req] ->
       authorization req = Some "Bearer ".
Proof.
  destruct (authorization_header (Example.server 200 true) Example.lakes
              "https://x/lakes.json" "" Example.start) as [(req & Hlog & Hauth) _].
  destruct (authorization_header (Example.server 200 true) Example.lakes
              "https://x/lakes.json" "" Example.added_42) as [_ Hpost].
  split.
  - rewrite Hlog. simpl. rewrite Hauth. reflexivity.
  - exact Hpost.
Defined.

(* ===================================================================== *)
(** ** One diff for all layers                                            *)
(* ===================================================================== *)



(* ===================================================================== *)
(** ** Poll / reload                                                      *)
(* ===================================================================== *)

(** C2, as the code has it.  A layer of that name is in the project, the
    fetch succeeds and the hash of the content is the stored one: the
    reload reports "no changes found" and, the request and the message
    apart, leaves the state as it was. *)
Theorem reload_same_hash_layer_present (env : Env) (name url token : string) (st : State)
    (response : Response) :
  layer_present name st = true ->
  send env (http_log st) (get_request url token) = Ok response ->
  status_code response = 200 ->
  layer_hashes st !! name = Some (Hashlib.md5_hexdigest (content response)) ->
  reload_layer env name url token st
  = (Ok tt,
     set_message_bar (message_bar st ++ [(Info, "Layer '" +:+ name +:+ "' no changes found.")])
       (set_http_log (http_log st ++ [get_request url token]) st)).
Proof.
  intros Hpresent Hsend Hstatus Hhash.
  unfold reload_layer, bindM. rewrite get_geojson_hash_run, Hsend.
  unfold fetch_result. rewrite Hstatus. simpl.
  unfold layer_present in Hpresent. rewrite Hpresent.
  rewrite bool_decide_eq_true_2 by exact Hhash.
  reflexivity.
Qed.

(** C10, as the code has it.  No layer of that name is in the project, the
    fetch succeeds and OGR reads a valid layer from the content: the reload
    adds the new layer to the project, wires it, stores the hash and reports
    "updated", whatever hash was stored before. *)
Theorem reload_layer_absent (env : Env) (name url token : string) (st : State)
    (response : Response) (ogr : OgrData) :
  layer_present name st = false ->
  send env (http_log st) (get_request url token) = Ok response ->
  status_code response = 200 ->
  ogr_open env (content response) = Ok ogr ->
  ogr_valid ogr = true ->
  let st' := exec (reload_layer env name url token) st in
  project st' = project st ++ [new_layer (next_layer_id st) name ogr]
  /\ connections st' = connections st ++ [(next_layer_id st, (url, token))]
  /\ layer_hashes st' = <[name := Hashlib.md5_hexdigest (content response)]> (layer_hashes st)
  /\ message_bar st' = message_bar st ++ [(Info, "Layer '" +:+ name +:+ "' updated.")].
Proof.
  intros Habsent Hsend Hstatus Hogr Hvalid.
  unfold exec, reload_layer, bindM. rewrite get_geojson_hash_run, Hsend.
  unfold fetch_result. rewrite Hstatus. simpl.
  unfold layer_present in Habsent. rewrite Habsent. simpl.
  unfold create_layer_from_content, try_exceptM, bindM, lift. rewrite Hogr. simpl.
  unfold new_layer. rewrite Hvalid. simpl.
  repeat split; reflexivity.
Qed.

(** C2, as the claim has it, fails.  The hash of the content is the stored
    one, but the project holds no layer named "lakes": the reload adds a
    layer and reports "updated". *)
Lemma reload_same_hash_layer_absent :
  let st := set_layer_hashes {[ "lakes" := Hashlib.md5_hexdigest Example.body ]}
              (set_project [] [] Example.start) in
  let st' := exec (reload_layer (Example.server 200 true) "lakes" "https://x/lakes.json" "") st in
  layer_hashes st !! "lakes" = Some (Hashlib.md5_hexdigest Example.body)
  /\ project st = []
  /\ map Qgis.name (project st') = ["lakes"]
  /\ message_bar st' = [(Info, "Layer 'lakes' updated.")].
Proof. vm_compute. repeat split; reflexivity. Qed.

(** C10, as the claim has it, fails.  No layer named "lakes" is in the
    project and the fetch succeeds, but OGR does not read a valid layer from
    the content: nothing is added. *)
Lemma reload_absent_invalid_content :
  let st := set_project [] [] Example.start in
  let st' := exec (reload_layer (Example.server 200 false) "lakes" "https://x/lakes.json" "") st in
  http_log st' = [GET "https://x/lakes.json" []]
  /\ project st' = []
  /\ layer_hashes st' = layer_hashes st
  /\ message_bar st' = [(Critical, "Layer 'lakes' failed to load from temporary file.");
                        (Critical, "Failed to reload layer 'lakes'.")].
Proof. vm_compute. repeat split; reflexivity. Qed.

(* ===================================================================== *)
(** ** Loading the registry                                               *)
(* ===================================================================== *)

Lemma md5_hexdigest_truthy (content : list Byte.byte) :
  truthy (Hashlib.md5_hexdigest content) = true.
Proof.
  unfold Hashlib.md5_hexdigest.
  destruct (Hashlib.md5_chunks _ _ _) as [[[A B] C] D]. reflexivity.
Qed.

(** One entry: the fetch is made, nothing is raised, the registry is not
    touched, and the project and the wiring only grow. *)
Lemma load_entry_run (env : Env) (entry : string * list (string * string)) (st : State) :
  exists st',
    load_entry env entry st = (Ok tt, st')
    /\ http_log st' = http_log st ++ [entry_request entry]
    /\ layers st' = layers st
    /\ (exists more, project st' = project st ++ more)
    /\ (exists wired, connections st' = connections st ++ wired).
Proof.
  unfold load_entry, bindM. rewrite get_geojson_hash_run.
  fold (entry_request entry).
  assert (Hnil : forall A (l : list A), l = l ++ []) by (intros; now rewrite app_nil_r).
  destruct (fetch_result _) as [[hash_val content]|]; simpl;
    [|eexists; split; [reflexivity|]; simpl; eauto 10].
  destruct (truthy hash_val && negb (bool_decide (content = []))); simpl;
    [|eexists; split; [reflexivity|]; simpl; eauto 10].
  unfold create_layer_from_content, try_exceptM, bindM, lift.
  destruct (ogr_open env content) as [ogr|e]; simpl;
    [|eexists; split; [reflexivity|]; simpl; eauto 10].
  destruct (ogr_valid ogr) eqn:Hvalid; simpl; rewrite ?Hvalid; simpl;
    eexists; (split; [reflexivity|]); simpl; eauto 10.
Qed.

(** One entry whose fetch and decoding succeed is attached: its layer is
    added to the project and wired with the entry's URL and token. *)
Lemma load_entry_attach (env : Env) (entry : string * list (string * string)) (st : State)
    (response : Response) (ogr : OgrData) :
  send env (http_log st) (entry_request entry) = Ok response ->
  status_code response = 200 ->
  content response <> [] ->
  ogr_open env (content response) = Ok ogr ->
  ogr_valid ogr = true ->
  project (exec (load_entry env entry) st)
  = project st ++ [new_layer (next_layer_id st) entry.1 ogr]
  /\ connections (exec (load_entry env entry) st)
     = connections st
       ++ [(next_layer_id st,
            (default "" (dict_get "url" entry.2), default "" (dict_get "token" entry.2)))].
Proof.
  intros Hsend Hstatus Hcontent Hogr Hvalid.
  unfold exec, load_entry, bindM. rewrite get_geojson_hash_run.
  fold (entry_request entry). rewrite Hsend.
  unfold fetch_result. rewrite Hstatus. simpl.
  rewrite md5_hexdigest_truthy, bool_decide_eq_false_2 by exact Hcontent. simpl.
  unfold create_layer_from_content, try_exceptM, bindM, lift. rewrite Hogr. simpl.
  unfold new_layer. rewrite Hvalid. simpl. split; reflexivity.
Qed.

Lemma for_each_load_run (env : Env) (entries : list (string * list (string * string)))
    (st : State) :
  exists st',
    for_each entries (load_entry env) st = (Ok tt, st')
    /\ http_log st' = http_log st ++ map entry_request entries
    /\ layers st' = layers st
    /\ (exists more, project st' = project st ++ more)
    /\ (exists wired, connections st' = connections st ++ wired).
Proof.
  revert st. induction entries as [|entry entries IH]; intros st; simpl.
  - exists st. repeat split; try now rewrite app_nil_r.
    + exists []. now rewrite app_nil_r.
    + exists []. now rewrite app_nil_r.
  - destruct (load_entry_run env entry st)
      as (st1 & Hrun & Hlog & Hlayers & (more1 & Hproject) & (wired1 & Hwired)).
    destruct (IH st1)
      as (st2 & Hrun2 & Hlog2 & Hlayers2 & (more2 & Hproject2) & (wired2 & Hwired2)).
    exists st2. unfold bindM. rewrite Hrun. repeat split.
    + exact Hrun2.
    + rewrite Hlog2, Hlog, <- app_assoc. reflexivity.
    + congruence.
    + exists (more1 ++ more2). rewrite Hproject2, Hproject, <- app_assoc. reflexivity.
    + exists (wired1 ++ wired2). rewrite Hwired2, Hwired, <- app_assoc. reflexivity.
Qed.

Lemma for_each_load_app (env : Env) (before after : list (string * list (string * string)))
    (st : State) :
  for_each (before ++ after) (load_entry env) st
  = for_each after (load_entry env) (exec (for_each before (load_entry env)) st).
Proof.
  revert st. induction before as [|entry before IH]; intros st; simpl; [reflexivity|].
  destruct (load_entry_run env entry st) as (st1 & Hrun & _).
  unfold exec, bindM in *. rewrite Hrun. apply IH.
Qed.

(** C9.  When the registry is loaded, the run ends without an exception,
    [self.layers] is the whole registry, and one GET has gone out for every
    entry, in order, whatever the outcome of the entries before it.  An
    entry whose own fetch and decoding succeed is attached, whatever
    happened to the other entries: at the end its layer is in the project
    and is wired ([connect_sync_signal]) with the entry's URL and token. *)
Theorem load_bookmarks_attempts_every_entry (env : Env) (st : State)
    (registry : list (string * list (string * string))) :
  project_file st <> "" ->
  default (Registry []) (settings st !! ("bookmarks/" +:+ project_file st)) = Registry registry ->
  exists st',
    load_bookmarks env st = (Ok tt, st')
    /\ layers st' = registry
    /\ http_log st' = http_log st ++ map entry_request registry
    /\ forall before entry after response ogr,
         registry = before ++ entry :: after ->
         let st_entry := exec (for_each before (load_entry env)) (set_layers registry st) in
         send env (http_log st_entry) (entry_request entry) = Ok response ->
         status_code response = 200 ->
         content response <> [] ->
         ogr_open env (content response) = Ok ogr ->
         ogr_valid ogr = true ->
         In (new_layer (next_layer_id st_entry) entry.1 ogr) (project st')
         /\ In (next_layer_id st_entry,
                (default "" (dict_get "url" entry.2), default "" (dict_get "token" entry.2)))
               (connections st').
Proof.
  intros Hfile Hstored.
  destruct (for_each_load_run env registry (set_layers registry st))
    as (st' & Hrun & Hlog & Hlayers & _).
  exists st'. split; [|split; [exact Hlayers | split; [exact Hlog|]]].
  - unfold load_bookmarks, bindM, get, try_exceptM, lift, truthy.
    destruct (String.eqb_spec (project_file st) "") as [Hempty|_]; [contradiction|].
    simpl. rewrite Hstored. simpl.
    unfold bindM, modify. rewrite Hrun. reflexivity.
  - intros before entry after response ogr Hsplit st_entry Hsend Hstatus Hcontent Hogr Hvalid.
    rewrite Hsplit, for_each_load_app in Hrun. rewrite <- Hsplit in Hrun.
    fold st_entry in Hrun. simpl in Hrun. unfold bindM in Hrun.
    destruct (load_entry_attach env entry st_entry response ogr
                Hsend Hstatus Hcontent Hogr Hvalid) as [Hattach Hwire].
    destruct (load_entry_run env entry st_entry) as (st1 & Hrun1 & _).
    unfold exec in Hattach, Hwire. rewrite Hrun1 in Hattach, Hwire, Hrun.
    simpl in Hattach, Hwire.
    destruct (for_each_load_run env after st1)
      as (st2 & Hrun2 & _ & _ & (more & Hproject) & (wired & Hwired)).
    rewrite Hrun2 in Hrun. injection Hrun as <-.
    rewrite Hproject, Hattach, Hwired, Hwire.
    split; (apply in_or_app; left; apply in_or_app; right; now left).
Qed.

(* ===================================================================== *)
(** ** The theorems at work on the example                                *)
(* ===================================================================== *)

(** The theorem at work on the 29th of February 2024. *)
Lemma convert_variant_cases_witness :
  exists yyyy mm dd,
    convert_variant (Bare (PyDate {| year := 2024; month := 2; day := 29 |}))
    = Ok (PyStr (yyyy +:+ "-" +:+ mm +:+ "-" +:+ dd))
    /\ read_decimal yyyy = Some 2024
    /\ read_decimal mm = Some 2
    /\ read_decimal dd = Some 29.
Proof.
  destruct convert_variant_cases as (_ & _ & _ & _ & _ & Hdate & _).
  destruct (Hdate {| year := 2024; month := 2; day := 29 |}) as (yyyy & mm & dd & H).
  - reflexivity.
  - simpl. lia.
  - exists yyyy, mm, dd. destruct H as (Hs & _ & _ & _ & Hy & Hm & Hd).
    split; [exact Hs|]. split; [exact Hy|]. split; [exact Hm | exact Hd].
Defined.

(** The upload of feature 42: answered 200 the diff is empty, answered 500
    or not answered at all the diff still holds 42. *)
Lemma sync_diff_all_or_nothing_witness :
  diff (exec (sync_layer_to_server (Example.server 200 true) Example.lakes
                "https://x/lakes.json" "") Example.added_42) = empty_diff
  /\ diff (exec (sync_layer_to_server (Example.server 500 true) Example.lakes
                   "https://x/lakes.json" "") Example.added_42) = diff Example.added_42
  /\ diff (exec (sync_layer_to_server Example.offline Example.lakes
                   "https://x/lakes.json" "") Example.added_42) = diff Example.added_42.
Proof.
  split; [|split].
  - destruct (sync_diff_all_or_nothing (Example.server 200 true) Example.lakes
                "https://x/lakes.json" "" Example.added_42) as (_ & _ & H & _).
    assert (Hlog : http_log (exec (sync_layer_to_server (Example.server 200 true) Example.lakes
                                     "https://x/lakes.json" "") Example.added_42)
                   = http_log Example.added_42 ++ [lakes_upload])
      by (vm_compute; reflexivity).
    exact (H lakes_upload Hlog).
  - destruct (sync_diff_all_or_nothing (Example.server 500 true) Example.lakes
                "https://x/lakes.json" "" Example.added_42) as (_ & _ & H & _).
    assert (Hlog : http_log (exec (sync_layer_to_server (Example.server 500 true) Example.lakes
                                     "https://x/lakes.json" "") Example.added_42)
                   = http_log Example.added_42 ++ [lakes_upload])
      by (vm_compute; reflexivity).
    exact (H lakes_upload Hlog).
  - destruct (sync_diff_all_or_nothing Example.offline Example.lakes
                "https://x/lakes.json" "" Example.added_42) as (_ & _ & H & _).
    assert (Hlog : http_log (exec (sync_layer_to_server Example.offline Example.lakes
                                     "https://x/lakes.json" "") Example.added_42)
                   = http_log Example.added_42 ++ [lakes_upload])
      by (vm_compute; reflexivity).
    exact (H lakes_upload Hlog).
Defined.

(** Feature 5 was deleted and nothing else: the sync sends nothing. *)
Lemma sync_without_changes_witness :
  let st := exec (emit Example.offline Example.lakes (featureDeleted 5)) Example.start in
  sync_layer_to_server Example.offline Example.lakes "https://x/lakes.json" "" st
  = (Ok tt, set_message_bar [(Info, "No changes to sync.")] st).
Proof.
  intros st.
  apply (sync_without_changes Example.offline Example.lakes "https://x/lakes.json" "" st).
  vm_compute. reflexivity.
Defined.


(** [lakes] is in the project with the hash of the content stored. *)
Lemma reload_same_hash_layer_present_witness :
  let st := set_layer_hashes {[ "lakes" := Hashlib.md5_hexdigest Example.body ]} Example.start in
  reload_layer (Example.server 200 true) "lakes" "https://x/lakes.json" "" st
  = (Ok tt,
     set_message_bar [(Info, "Layer 'lakes' no changes found.")]
       (set_http_log [GET "https://x/lakes.json" []] st)).
Proof.
  intros st.
  apply (reload_same_hash_layer_present (Example.server 200 true)
           "lakes" "https://x/lakes.json" "" st (Example.answer 200)).
  - reflexivity.
  - reflexivity.
  - reflexivity.
  - vm_compute. reflexivity.
Defined.

(** No layer is in the project, the stored hash is the hash of the content:
    the layer is built and added all the same. *)
Lemma reload_layer_absent_witness :
  let st := set_layer_hashes {[ "lakes" := Hashlib.md5_hexdigest Example.body ]}
              (set_project [] [] Example.start) in
  let st' := exec (reload_layer (Example.server 200 true) "lakes" "https://x/lakes.json" "") st in
  layer_hashes st !! "lakes" = Some (Hashlib.md5_hexdigest (content (Example.answer 200)))
  /\ project st' = [new_layer 2 "lakes" (Example.ogr true)]
  /\ message_bar st' = [(Info, "Layer 'lakes' updated.")].
Proof.
  intros st st'.
  destruct (reload_layer_absent (Example.server 200 true) "lakes" "https://x/lakes.json" "" st
              (Example.answer 200) (Example.ogr true))
    as (Hproject & _ & _ & Hmessage); try reflexivity.
  split; [vm_compute; reflexivity|].
  split; [exact Hproject | exact Hmessage].
Defined.

Lemma load_bookmarks_attempts_every_entry_witness :
  exists st',
    load_bookmarks picky_server saved = (Ok tt, st')
    /\ http_log st' = [GET "https://x/lakes.json" [];
                       GET "https://x/rivers.json" [("Authorization", "Bearer s3cret")]]
    /\ In (new_layer 2 "rivers" (Example.ogr true)) (project st')
    /\ In (2%nat, ("https://x/rivers.json", "s3cret")) (connections st').
Proof.
  destruct (load_bookmarks_attempts_every_entry picky_server saved (layers Example.start))
    as (st' & Hrun & _ & Hlog & Hattach).
  - discriminate.
  - vm_compute. reflexivity.
  - exists st'. split; [exact Hrun|]. split; [exact Hlog|].
    apply (Hattach [("lakes", [("url", "https://x/lakes.json"); ("token", "")])]
                   ("rivers", [("url", "https://x/rivers.json"); ("token", "s3cret")])
                   [] (Example.answer 200) (Example.ogr true)).
    + reflexivity.
    + reflexivity.
    + reflexivity.
    + discriminate.
    + reflexivity.
    + reflexivity.
Defined.

(* ===================================================================== *)
(** ** Further properties: the encoder                                    *)
(* ===================================================================== *)

(** X1.  Whatever the property value, what [convert_variant] returns is
    [None], a string, a boolean or a number, never a [QDate] or another
    object; and converting that result again, bare or in a [QVariant],
    changes nothing. *)
Theorem convert_variant_primitive (val : PyVal) :
  exists o,
    convert_variant val = Ok o
    /\ primitive o = true
    /\ convert_variant (Bare o) = Ok o
    /\ convert_variant (QVariant o) = Ok o.
Proof.
  destruct val as [o|o|o]; destruct o as [| | | | | |[s|e]]; simpl; eauto 10.
Qed.

Lemma convert_variant_converted (val : PyVal) : convert_variant val = Ok (converted val).
Proof.
  unfold converted.
  destruct val as [o|o|o]; destruct o as [| | | | | |[s|e]]; reflexivity.
Qed.

Lemma serialize_properties_snoc (layer : Layer) (props : list PyVal) (v : PyVal) :
  serialize_properties layer (props ++ [v])
  = Py.bind (serialize_properties layer props) (fun d =>
    Py.bind (field_name_at layer (length props)) (fun k =>
    Ok (dict_set k (DVal (converted v)) d))).
Proof.
  unfold serialize_properties.
  rewrite imap_app, foldl_app. simpl. rewrite Nat.add_0_r.
  destruct (foldl _ _ _) as [d|e]; simpl; [|reflexivity].
  destruct (field_name_at layer (length props)) as [k|e]; simpl; [|reflexivity].
  rewrite convert_variant_converted. reflexivity.
Qed.

Lemma dict_set_fresh {K V} `{EqDecision K} (k : K) (v : V) (d : list (K * V)) :
  ~ In k (dict_keys d) -> dict_set k v d = d ++ [(k, v)].
Proof.
  induction d as [|[k' v'] d IH]; simpl; intros Hfresh; [reflexivity|].
  destruct (decide (k = k')) as [->|Hne]; [tauto|].
  rewrite IH; [reflexivity | tauto].
Qed.

Lemma serialize_properties_bounds (layer : Layer) (props : list PyVal) :
  if (length props <=? length (fields layer))%nat
  then exists d, serialize_properties layer props = Ok d
  else serialize_properties layer props
       = Raise (KeyError (pretty (length (fields layer)))).
Proof.
  induction props as [|v props IH] using rev_ind.
  - simpl. eauto.
  - rewrite serialize_properties_snoc, length_app. simpl.
    unfold field_name_at.
    destruct (Nat.leb_spec (length props) (length (fields layer))) as [Hle|Hgt].
    + destruct IH as [d ->]. simpl.
      destruct (fields layer !! length props) as [k|] eqn:Hk; simpl.
      * apply lookup_lt_Some in Hk.
        destruct (Nat.leb_spec (length props + 1) (length (fields layer))); [eauto | lia].
      * apply lookup_ge_None in Hk.
        destruct (Nat.leb_spec (length props + 1) (length (fields layer))); [lia|].
        replace (length props) with (length (fields layer)) by lia. reflexivity.
    + rewrite IH. simpl.
      destruct (Nat.leb_spec (length props + 1) (length (fields layer))); [lia | reflexivity].
Qed.

(** X2.  The encoder looks up a field name for every attribute: a feature
    with at most as many attributes as the layer has fields is encoded, a
    feature with more raises KeyError, for the index of the first attribute
    that has no field. *)
Theorem serialize_feature_bounds (layer : Layer) (feat : Feature) :
  if (length (attributes feat) <=? length (fields layer))%nat
  then exists d, _serialize_feature layer feat = Ok d
  else _serialize_feature layer feat = Raise (KeyError (pretty (length (fields layer)))).
Proof.
  unfold _serialize_feature.
  pose proof (serialize_properties_bounds layer (attributes feat)) as Hprops.
  destruct (length (attributes feat) <=? length (fields layer))%nat.
  - destruct Hprops as [d ->]. simpl. eauto.
  - rewrite Hprops. reflexivity.
Qed.

Lemma serialize_properties_zip (layer : Layer) (props : list PyVal) :
  List.NoDup (fields layer) ->
  (length props <= length (fields layer))%nat ->
  serialize_properties layer props
  = Ok (zip (take (length props) (fields layer)) (map (fun v => DVal (converted v)) props)).
Proof.
  intros Hnd. induction props as [|v props IH] using rev_ind; intros Hlen.
  - reflexivity.
  - rewrite length_app in Hlen. simpl in Hlen.
    rewrite serialize_properties_snoc, IH by lia. simpl.
    unfold field_name_at.
    destruct (fields layer !! length props) as [k|] eqn:Hk;
      [|apply lookup_ge_None in Hk; lia].
    simpl. f_equal.
    rewrite length_app. simpl. rewrite Nat.add_1_r.
    rewrite (take_S_r _ _ _ Hk), map_app. simpl.
    rewrite zip_with_app by (rewrite length_take, length_map; lia).
    simpl. apply dict_set_fresh.
    unfold dict_keys. intros Hin.
    apply in_map_iff in Hin. destruct Hin as ([k' x] & Hfst & Hin). simpl in Hfst. subst k'.
    apply list_elem_of_In, elem_of_zip_l in Hin.
    apply list_elem_of_lookup in Hin. destruct Hin as [i Hi].
    apply lookup_take_Some in Hi. destruct Hi as [Hi Hlt].
    apply NoDup_ListNoDup in Hnd.
    pose proof (NoDup_lookup _ _ _ _ Hnd Hi Hk). lia.
Qed.

(** X3.  On a layer whose field names are distinct, the properties of the
    encoded feature are its attributes, converted, in order, each under
    the name of the field of the same position. *)
Theorem serialize_feature_properties (layer : Layer) (feat : Feature) :
  List.NoDup (fields layer) ->
  (length (attributes feat) <= length (fields layer))%nat ->
  _serialize_feature layer feat
  = Ok (DDict [("type", DStr (wkb_display (geometry feat)));
               ("geometry", asJson (geometry feat));
               ("properties",
                DDict (zip (take (length (attributes feat)) (fields layer))
                           (map (fun v => DVal (converted v)) (attributes feat))))]).
Proof.
  intros Hnd Hlen. unfold _serialize_feature.
  rewrite serialize_properties_zip by assumption. reflexivity.
Qed.

(* ===================================================================== *)
(** ** More on the upload                                                 *)
(* ===================================================================== *)

(** [sync_layer_to_server], path by path. *)
Lemma sync_layer_to_server_cases (env : Env) (layer : Layer) (url token : string) (st : State) :
  sync_layer_to_server env layer url token st
  = if decide (changed_ids st = ∅) then (Ok tt, pushed Info "No changes to sync." st)
    else
      match sync_features layer st with
      | Raise e => (Ok tt, pushed Critical ("Sync error: " +:+ exn_str e) st)
      | Ok features =>
          let req := POST url (upload_headers token) (upload_payload features) in
          let st1 := set_http_log (http_log st ++ [req]) st in
          match send env (http_log st) req with
          | Raise e => (Ok tt, pushed Critical ("Sync error: " +:+ exn_str e) st1)
          | Ok response =>
              if status_code response =? 200 then
                match success_message response with
                | Ok msg => (Ok tt, pushed Success msg (set_diff empty_diff st1))
                | Raise e =>
                    (Ok tt, pushed Critical ("Sync error: " +:+ exn_str e)
                              (set_diff empty_diff st1))
                end
              else (Ok tt, pushed Critical ("Sync failed: " +:+ pretty (status_code response)) st1)
          end
      end.
Proof.
  unfold sync_layer_to_server, try_exceptM, bindM, get, lift, request, changed_ids.
  destruct (decide _) as [Hempty|Hne]; [reflexivity|].
  destruct (sync_features layer st) as [features|e]; [|reflexivity].
  fold (upload_headers token). fold (upload_payload features). simpl.
  destruct (send env (http_log st) _) as [response|e]; simpl; [|reflexivity].
  destruct (status_code response =? 200); simpl; [|reflexivity].
  destruct (success_message response); reflexivity.
Qed.

(** X4.  A sync never raises and tells the user exactly one thing; the
    registry, the hashes, the project, the wiring and the settings are as
    before. *)
Theorem sync_reports_once (env : Env) (layer : Layer) (url token : string) (st : State) :
  exists lvl text st',
    sync_layer_to_server env layer url token st = (Ok tt, st')
    /\ message_bar st' = message_bar st ++ [(lvl, text)]
    /\ layers st' = layers st
    /\ layer_hashes st' = layer_hashes st
    /\ project st' = project st
    /\ connections st' = connections st
    /\ settings st' = settings st.
Proof.
  rewrite sync_layer_to_server_cases.
  destruct (decide _); [eauto 12|].
  destruct (sync_features layer st); [|eauto 12]. simpl.
  destruct (send env _ _) as [response|e]; [|eauto 12].
  destruct (status_code response =? 200); [|eauto 12].
  destruct (success_message response); eauto 12.
Qed.

(** X5.  Once an upload was answered 200, the next sync, for whatever
    layer, sends nothing and reports "No changes to sync.". *)
Theorem sync_after_success (env env2 : Env) (layer layer2 : Layer)
    (url token url2 token2 : string) (st : State) (req : Request) (response : Response) :
  let st1 := exec (sync_layer_to_server env layer url token) st in
  http_log st1 = http_log st ++ [req] ->
  send env (http_log st) req = Ok response ->
  status_code response = 200 ->
  sync_layer_to_server env2 layer2 url2 token2 st1
  = (Ok tt, pushed Info "No changes to sync." st1).
Proof.
  intros st1 Hlog Hsend Hstatus.
  assert (Hdiff : diff st1 = empty_diff).
  { subst st1. unfold exec in *. rewrite sync_layer_to_server_cases in *.
    destruct (decide _); [now apply log_not_extended in Hlog|].
    destruct (sync_features layer st) as [features|e];
      [|now apply log_not_extended in Hlog].
    simpl in *.
    assert (Hreq : req = POST url (upload_headers token) (upload_payload features)).
    { destruct (send env _ (POST _ _ _)) as [r|e]; [destruct (status_code r =? 200);
        [destruct (success_message r)|]|]; simpl in Hlog;
        apply log_extended_inj in Hlog; congruence. }
    subst req. rewrite Hsend. apply Z.eqb_eq in Hstatus. rewrite Hstatus.
    destruct (success_message response); reflexivity. }
  clearbody st1. rewrite sync_layer_to_server_cases.
  unfold changed_ids. unfold diff, empty_diff in Hdiff.
  injection Hdiff as Hedited Hadded Hdeleted.
  rewrite Hedited, Hadded. simpl.
  destruct (decide _) as [_|Hne]; [reflexivity|].
  exfalso. apply Hne. set_solver.
Qed.

(** X6.  After an upload that was not answered 200 (another status, or no
    answer at all) the retry sends the very same request, as long as the
    layer is as it was. *)
Theorem sync_retry_same_request (env env2 : Env) (layer : Layer) (url token : string)
    (st : State) (req : Request) :
  let st1 := exec (sync_layer_to_server env layer url token) st in
  http_log st1 = http_log st ++ [req] ->
  match send env (http_log st) req with
  | Ok response => status_code response <> 200
  | Raise _ => True
  end ->
  diff st1 = diff st
  /\ http_log (exec (sync_layer_to_server env2 layer url token) st1) = http_log st1 ++ [req].
Proof.
  intros st1 Hlog Hfailed. subst st1. unfold exec in *.
  rewrite sync_layer_to_server_cases in *.
  destruct (decide (changed_ids st = ∅)) as [|Hchanged];
    [now apply log_not_extended in Hlog|].
  destruct (sync_features layer st) as [features|e] eqn:Hf;
    [|now apply log_not_extended in Hlog].
  simpl in *.
  set (post := POST url (upload_headers token) (upload_payload features)) in *.
  assert (Hreq : req = post).
  { destruct (send env _ post) as [r|e]; [destruct (status_code r =? 200);
      [destruct (success_message r)|]|]; simpl in Hlog;
      apply log_extended_inj in Hlog; congruence. }
  subst req. clear Hlog.
  assert (Hst1 : exists lvl text,
            (match send env (http_log st) post with
             | Ok response =>
                 if status_code response =? 200 then
                   match success_message response with
                   | Ok msg => (Ok tt, pushed Success msg
                                         (set_diff empty_diff (set_http_log (http_log st ++ [post]) st)))
                   | Raise e => (Ok tt, pushed Critical ("Sync error: " +:+ exn_str e)
                                          (set_diff empty_diff (set_http_log (http_log st ++ [post]) st)))
                   end
                 else (Ok tt, pushed Critical ("Sync failed: " +:+ pretty (status_code response))
                                (set_http_log (http_log st ++ [post]) st))
             | Raise e => (Ok tt, pushed Critical ("Sync error: " +:+ exn_str e)
                                    (set_http_log (http_log st ++ [post]) st))
             end : Result unit * State)
            = (Ok tt, pushed lvl text (set_http_log (http_log st ++ [post]) st))).
  { destruct (send env (http_log st) post) as [response|e]; [|eauto].
    destruct (Z.eqb_spec (status_code response) 200); [contradiction | eauto]. }
  destruct Hst1 as (lvl & text & ->). simpl.
  split; [reflexivity|].
  rewrite sync_layer_to_server_cases.
  change (changed_ids (pushed lvl text (set_http_log (http_log st ++ [post]) st)))
    with (changed_ids st).
  destruct (decide (changed_ids st = ∅)); [contradiction|].
  change (sync_features layer (pushed lvl text (set_http_log (http_log st ++ [post]) st)))
    with (sync_features layer st).
  rewrite Hf. simpl. fold post.
  destruct (send env2 _ post) as [r|e]; [destruct (status_code r =? 200);
    [destruct (success_message r)|]|]; reflexivity.
Qed.

(** X7.  An answer 200 whose body is not a JSON object with a string under
    "message" (or no JSON at all) still empties the diff, but what the
    user is told is "Sync error". *)
Theorem sync_200_unreadable_body (env : Env) (layer : Layer) (url token : string)
    (st : State) (features : list PyData) (response : Response) (e : Exn) :
  changed_ids st <> ∅ ->
  sync_features layer st = Ok features ->
  send env (http_log st) (POST url (upload_headers token) (upload_payload features))
    = Ok response ->
  status_code response = 200 ->
  success_message response = Raise e ->
  let st' := exec (sync_layer_to_server env layer url token) st in
  diff st' = empty_diff
  /\ message_bar st' = message_bar st ++ [(Critical, "Sync error: " +:+ exn_str e)].
Proof.
  intros Hchanged Hf Hsend Hstatus Hmsg. unfold exec.
  rewrite sync_layer_to_server_cases.
  destruct (decide _); [contradiction|].
  rewrite Hf. simpl. rewrite Hsend, Hstatus, Hmsg. simpl. split; reflexivity.
Qed.

(** X8.  An answer 200 whose body is a JSON object without "message" is
    reported as "Synced successfully."; with a string under "message", as
    that string. *)
Theorem sync_200_message (env : Env) (layer : Layer) (url token : string)
    (st : State) (features : list PyData) (response : Response)
    (body : list (string * PyData)) :
  changed_ids st <> ∅ ->
  sync_features layer st = Ok features ->
  send env (http_log st) (POST url (upload_headers token) (upload_payload features))
    = Ok response ->
  status_code response = 200 ->
  json response = Ok (DDict body) ->
  let st' := exec (sync_layer_to_server env layer url token) st in
  (dict_get "message" body = None ->
   message_bar st' = message_bar st ++ [(Success, "Synced successfully.")])
  /\ (forall msg, dict_get "message" body = Some (DStr msg) ->
      message_bar st' = message_bar st ++ [(Success, msg)]).
Proof.
  intros Hchanged Hf Hsend Hstatus Hjson. unfold exec.
  rewrite sync_layer_to_server_cases.
  destruct (decide _); [contradiction|].
  rewrite Hf. simpl. rewrite Hsend, Hstatus. simpl.
  unfold success_message. rewrite Hjson. simpl.
  split; [intros -> | intros msg ->]; reflexivity.
Qed.

Lemma mapR_raise {A B} (f : A -> Result B) (l : list A) (e : Exn) (a : A) :
  In a l -> (forall x, f x = Raise e \/ exists b, f x = Ok b) -> f a = Raise e ->
  mapR f l = Raise e.
Proof.
  intros Hin Hf Ha. induction l as [|x l IH]; simpl; [contradiction|].
  destruct (Hf x) as [->|[b Hb]]; [reflexivity|].
  rewrite Hb. simpl. destruct Hin as [->|Hin]; [congruence|].
  rewrite IH by assumption. reflexivity.
Qed.

Lemma mapR_raise_or_ok {A B} (f : A -> Result B) (l : list A) (e : Exn) :
  (forall x, f x = Raise e \/ exists b, f x = Ok b) ->
  mapR f l = Raise e \/ exists bs, mapR f l = Ok bs.
Proof.
  intros Hf. induction l as [|x l IH]; simpl; [eauto|].
  destruct (Hf x) as [->|[b ->]]; [now left|]. simpl.
  destruct IH as [->|[bs ->]]; simpl; eauto.
Qed.

Lemma tagged_raise_or_ok (layer : Layer) (mode : string) (feat : Feature) :
  tagged layer mode feat = Raise (KeyError (pretty (length (fields layer))))
  \/ exists f, tagged layer mode feat = Ok f.
Proof.
  unfold tagged, _serialize_feature.
  pose proof (serialize_properties_bounds layer (attributes feat)) as H.
  destruct (length (attributes feat) <=? length (fields layer))%nat.
  - destruct H as [d ->]. simpl. eauto.
  - rewrite H. now left.
Qed.

(** X9.  When one of the added features has more attributes than the layer
    the sync runs for has fields, nothing is sent and the diff stays: the
    sync reports "Sync error: " followed by [str] of the KeyError, which is
    the number of fields of the layer in quotes. *)
Theorem sync_encoding_error (env : Env) (layer : Layer) (url token : string)
    (st : State) (fid : Z) (feat : Feature) :
  In (fid, feat) (_added_features st) ->
  (length (fields layer) < length (attributes feat))%nat ->
  sync_layer_to_server env layer url token st
  = (Ok tt,
     pushed Critical ("Sync error: '" +:+ pretty (length (fields layer)) +:+ "'") st).
Proof.
  intros Hin Hlen. rewrite sync_layer_to_server_cases.
  destruct (decide (changed_ids st = ∅)) as [Hempty|_].
  - exfalso. assert (Hfid : fid ∈ changed_ids st).
    { unfold changed_ids. apply elem_of_union. right.
      apply elem_of_list_to_set, list_elem_of_In. unfold dict_keys.
      apply in_map_iff. exists (fid, feat). split; [reflexivity | assumption]. }
    rewrite Hempty in Hfid. now apply not_elem_of_empty in Hfid.
  - assert (Hf : sync_features layer st = Raise (KeyError (pretty (length (fields layer))))).
    { unfold sync_features.
      destruct (mapR_raise_or_ok
                  (fun id => tagged layer "update" (getFeature layer id))
                  (elements (_edited_features st))
                  (KeyError (pretty (length (fields layer))))) as [->|[updates ->]].
      - intros id. apply tagged_raise_or_ok.
      - reflexivity.
      - simpl.
        rewrite (mapR_raise (fun kv => tagged layer "add" kv.2) _
                   (KeyError (pretty (length (fields layer)))) (fid, feat)).
        + reflexivity.
        + assumption.
        + intros kv. apply tagged_raise_or_ok.
        + simpl. unfold tagged, _serialize_feature.
          pose proof (serialize_properties_bounds layer (attributes feat)) as H.
          destruct (Nat.leb_spec (length (attributes feat)) (length (fields layer))); [lia|].
          rewrite H. reflexivity. }
    rewrite Hf. reflexivity.
Qed.

(* ===================================================================== *)
(** ** More on the change tracker                                         *)
(* ===================================================================== *)

(** X10.  An edit notification puts its identifier into the edited set
    and changes nothing else.  So a second notification for the same
    identifier changes nothing, a geometry change and an attribute change
    of it are told apart nowhere, and two notifications may come in either
    order. *)
Theorem edit_notifications_set_like (env : Env) (layer1 layer2 : Layer)
    (url1 token1 url2 token2 : string) (fid1 fid2 : Z) (sig1 sig2 : Signal) (st : State) :
  is_edit sig1 fid1 ->
  is_edit sig2 fid2 ->
  let after s1 s2 := exec (slot env layer2 url2 token2 s2) (exec (slot env layer1 url1 token1 s1) st) in
  exec (slot env layer1 url1 token1 sig1) st
  = set_diff ({[fid1]} ∪ _edited_features st, _added_features st, _deleted_ids st) st
  /\ fid1 ∈ _edited_features (exec (slot env layer1 url1 token1 sig1) st)
  /\ after sig1 sig1 = exec (slot env layer1 url1 token1 sig1) st
  /\ exec (slot env layer1 url1 token1 sig1) st
     = exec (slot env layer1 url1 token1 (geometryChanged fid1)) st
  /\ after sig1 sig2
     = exec (slot env layer1 url1 token1 sig1) (exec (slot env layer2 url2 token2 sig2) st).
Proof.
  intros H1 H2 after. subst after.
  assert (Hset : forall (a b : Z) (s : gset Z),
             {[a]} ∪ ({[a]} ∪ s) = {[a]} ∪ s /\ {[b]} ∪ ({[a]} ∪ s) = {[a]} ∪ ({[b]} ∪ s))
    by (intros a b s; split;
        [now rewrite (assoc_L (∪)), union_idemp_L
        |now rewrite !(assoc_L (∪)), (comm_L (∪) {[b]} {[a]})]).
  destruct (Hset fid1 fid2 (_edited_features st)) as [Hidem Hcomm].
  assert (Hin : fid1 ∈ ({[fid1]} ∪ _edited_features st : gset Z))
    by (apply elem_of_union; left; now apply elem_of_singleton).
  destruct H1 as [-> | ->], H2 as [-> | ->];
    unfold exec, slot, modify, set_diff; simpl;
    rewrite ?Hidem, ?Hcomm; (split; [reflexivity|]); (split; [exact Hin|]);
    repeat split; reflexivity.
Qed.

(** X11.  Deleting a feature that was added in the same session does not
    take back the addition: the identifier goes to the deleted set, the
    added map keeps its snapshot, and the upload is what it would have been
    without the deletion. *)
Theorem delete_keeps_pending_add (env : Env) (layer at_sync : Layer)
    (url token : string) (fid : Z) (st : State) :
  let st1 := exec (slot env layer url token (featureAdded fid)) st in
  let st2 := exec (slot env layer url token (featureDeleted fid)) st1 in
  dict_get fid (_added_features st2) = Some (getFeature layer fid)
  /\ fid ∈ _deleted_ids st2
  /\ fid ∈ changed_ids st2
  /\ sync_features at_sync st2 = sync_features at_sync st1.
Proof.
  simpl. repeat split.
  - apply dict_get_set_eq.
  - apply elem_of_union. left. now apply elem_of_singleton.
  - unfold changed_ids. simpl. apply elem_of_union. right.
    apply elem_of_list_to_set, list_elem_of_In, dict_keys_set_elem. now left.
Qed.

(** Every lambda runs to its end, and keeps the added map a dict. *)
Lemma slot_run (env : Env) (layer : Layer) (url token : string) (sig : Signal) (st : State) :
  List.NoDup (dict_keys (_added_features st)) ->
  exists st',
    slot env layer url token sig st = (Ok tt, st')
    /\ List.NoDup (dict_keys (_added_features st')).
Proof.
  intros Hnd. destruct sig as [fid|fid|fid|fid|]; simpl; unfold modify.
  - eexists. split; [reflexivity|]. simpl. now apply dict_keys_set_NoDup.
  - eexists. split; [reflexivity|]. assumption.
  - eexists. split; [reflexivity|]. assumption.
  - eexists. split; [reflexivity|]. assumption.
  - rewrite sync_layer_to_server_cases.
    destruct (decide _); [eexists; split; [reflexivity | assumption]|].
    destruct (sync_features layer st); [|eexists; split; [reflexivity | assumption]].
    simpl. destruct (send env _ _) as [response|e];
      [|eexists; split; [reflexivity | assumption]].
    destruct (status_code response =? 200);
      [|eexists; split; [reflexivity | assumption]].
    destruct (success_message response); eexists; (split; [reflexivity | constructor]).
Qed.

Lemma for_each_invariant {A} (P : State -> Prop) (body : A -> M unit) (l : list A) :
  (forall a st, P st -> exists st', body a st = (Ok tt, st') /\ P st') ->
  forall st, P st -> exists st', for_each l body st = (Ok tt, st') /\ P st'.
Proof.
  intros Hbody. induction l as [|a l IH]; intros st HP; simpl.
  - exists st. split; [reflexivity | assumption].
  - unfold bindM. destruct (Hbody a st HP) as (st1 & -> & HP1). now apply IH.
Qed.

(** X12.  Whatever signal a layer emits, all the lambdas wired to it run
    to their end, and the added map still has each identifier once. *)
Theorem emit_keeps_added_keys_distinct (env : Env) (layer : Layer) (sig : Signal) (st : State) :
  List.NoDup (dict_keys (_added_features st)) ->
  exists st',
    emit env layer sig st = (Ok tt, st')
    /\ List.NoDup (dict_keys (_added_features st')).
Proof.
  intros Hnd. unfold emit, bindM, get.
  apply (for_each_invariant (fun s => List.NoDup (dict_keys (_added_features s)))); [|assumption].
  intros c s Hs. now apply slot_run.
Qed.


(* ===================================================================== *)
(** ** More on fetching, layer creation and reload                        *)
(* ===================================================================== *)

(** X13.  The fetcher sends one GET and never raises.  It returns the MD5
    of the body together with the body when the answer has status 200, and
    [None], with nothing to tell the failures apart, in every other case. *)
Theorem fetch_outcomes (env : Env) (url token : string) (st : State) :
  exists r,
    get_geojson_hash env url token st
    = (Ok r, set_http_log (http_log st ++ [get_request url token]) st)
    /\ (fetch_failed (send env (http_log st) (get_request url token)) -> r = None)
    /\ (forall response,
          send env (http_log st) (get_request url token) = Ok response ->
          status_code response = 200 ->
          r = Some (Hashlib.md5_hexdigest (content response), content response)).
Proof.
  rewrite get_geojson_hash_run. eexists. split; [reflexivity|].
  unfold fetch_result, fetch_failed.
  destruct (send env _ _) as [response|e].
  - destruct (Z.eqb_spec (status_code response) 200) as [Heq|Hne].
    + split; [intros Hf; contradiction|].
      intros response' Hr _. now injection Hr as <-.
    + split; [reflexivity|]. intros response' Hr Hs. injection Hr as <-. contradiction.
  - split; [reflexivity|]. discriminate.
Qed.

(** [create_layer_from_content], path by path. *)
Lemma create_layer_from_content_cases (env : Env) (content : list Byte.byte) (name : string)
    (st : State) :
  create_layer_from_content env content name st
  = match ogr_open env content with
    | Raise e =>
        (Ok None, pushed Critical ("Error creating layer from content: " +:+ exn_str e) st)
    | Ok ogr =>
        let st1 := set_next_layer_id (S (next_layer_id st)) st in
        if ogr_valid ogr then (Ok (Some (new_layer (next_layer_id st) name ogr)), st1)
        else (Ok None,
              pushed Critical ("Layer '" +:+ name +:+ "' failed to load from temporary file.") st1)
    end.
Proof.
  unfold create_layer_from_content, try_exceptM, bindM, lift, new_layer.
  destruct (ogr_open env content) as [ogr|e]; simpl; [|reflexivity].
  destruct (ogr_valid ogr); reflexivity.
Qed.

(** X14.  Layer creation never raises.  A layer it returns is valid, has
    the name asked for and the data OGR read; when it returns none it has
    put a critical message on the bar.  Nothing else of the plugin's state
    changes. *)
Theorem create_layer_outcomes (env : Env) (content : list Byte.byte) (name : string)
    (st : State) :
  exists r st',
    create_layer_from_content env content name st = (Ok r, st')
    /\ match r with
       | Some layer =>
           isValid layer = true /\ Qgis.name layer = name
           /\ (exists ogr, ogr_open env content = Ok ogr
                           /\ fields layer = ogr_fields ogr
                           /\ features layer = ogr_features ogr)
           /\ message_bar st' = message_bar st
       | None => exists text, message_bar st' = message_bar st ++ [(Critical, text)]
       end
    /\ diff st' = diff st /\ layers st' = layers st /\ layer_hashes st' = layer_hashes st
    /\ project st' = project st /\ http_log st' = http_log st.
Proof.
  rewrite create_layer_from_content_cases.
  destruct (ogr_open env content) as [ogr|e]; simpl.
  - destruct (ogr_valid ogr) eqn:Hvalid.
    + eexists _, _. split; [reflexivity|]. simpl. rewrite Hvalid.
      repeat split; eauto.
    + eexists _, _. split; [reflexivity|]. simpl. repeat split; eauto.
  - eexists _, _. split; [reflexivity|]. simpl. repeat split; eauto.
Qed.

Lemma indexOf_Some (fs : list string) (f : string) (i : nat) :
  indexOf fs f = Some i -> fs !! i = Some f.
Proof.
  revert i. induction fs as [|g fs IH]; simpl; intros i H; [discriminate|].
  destruct (decide (g = f)) as [->|Hne].
  - now injection H as <-.
  - destruct (indexOf fs f) as [j|]; simpl in H; [|discriminate].
    injection H as <-. simpl. now apply IH.
Qed.

Lemma indexOf_is_Some (fs : list string) (f : string) :
  is_Some (indexOf fs f) <-> In f fs.
Proof.
  induction fs as [|g fs IH]; simpl.
  - split; [intros [x Hx]; discriminate | contradiction].
  - destruct (decide (g = f)) as [->|Hne].
    + split; [now left | eauto].
    + rewrite <- IH. destruct (indexOf fs f) as [j|]; simpl.
      * split; [eauto | eauto].
      * split; [intros [x Hx]; discriminate|].
        intros [Heq|[x Hx]]; [congruence | discriminate].
Qed.

(** X15.  In a created layer the fields hidden from the attribute table
    are "id" and "fid", each if the layer has a field of that name, and no
    other; the hidden editor widgets sit on fields of these names. *)
Theorem created_layer_hides_id_fields (env : Env) (content : list Byte.byte) (name : string)
    (st st' : State) (layer : Layer) :
  create_layer_from_content env content name st = (Ok (Some layer), st') ->
  (forall f, In f (hiddenFields layer) <-> (f = "id" \/ f = "fid") /\ In f (fields layer))
  /\ (forall i, In i (hidden_widgets layer) ->
        fields layer !! i = Some "id" \/ fields layer !! i = Some "fid").
Proof.
  rewrite create_layer_from_content_cases.
  destruct (ogr_open env content) as [ogr|e]; simpl; [|discriminate].
  destruct (ogr_valid ogr); [|discriminate].
  intros H. injection H as <- _. unfold new_layer, hide_id_fields. simpl.
  set (fs := ogr_fields ogr). split.
  - intros f. rewrite <- !list_elem_of_In, list_elem_of_filter, bool_decide_spec.
    rewrite indexOf_is_Some, !list_elem_of_In. simpl.
    intuition (subst; auto).
  - intros i. simpl.
    destruct (indexOf fs "id") as [i1|] eqn:Hid, (indexOf fs "fid") as [i2|] eqn:Hfid;
      simpl; try apply indexOf_Some in Hid; try apply indexOf_Some in Hfid;
      intuition (subst; auto).
Qed.

(** [reload_layer], path by path. *)
Lemma reload_layer_cases (env : Env) (name url token : string) (st : State) :
  reload_layer env name url token st
  = let st0 := set_http_log (http_log st ++ [get_request url token]) st in
    match fetch_result (send env (http_log st) (get_request url token)) with
    | None =>
        (Ok tt, pushed Critical ("Failed to check updates for layer '" +:+ name +:+ "'.") st0)
    | Some (hash_val, content) =>
        if layer_present name st && bool_decide (layer_hashes st !! name = Some hash_val)
        then (Ok tt, pushed Info ("Layer '" +:+ name +:+ "' no changes found.") st0)
        else
          match ogr_open env content with
          | Raise e =>
              (Ok tt,
               pushed Critical ("Failed to reload layer '" +:+ name +:+ "'.")
                 (pushed Critical ("Error creating layer from content: " +:+ exn_str e) st0))
          | Ok ogr =>
              let st1 := set_next_layer_id (S (next_layer_id st)) st0 in
              if ogr_valid ogr then
                (Ok tt,
                 pushed Info ("Layer '" +:+ name +:+ "' updated.")
                   (set_layer_hashes (<[name := hash_val]> (layer_hashes st))
                      (set_project
                         (without_first_named name st ++ [new_layer (next_layer_id st) name ogr])
                         (wiring_without_first_named name st
                            ++ [(next_layer_id st, (url, token))])
                         st1)))
              else
                (Ok tt,
                 pushed Critical ("Failed to reload layer '" +:+ name +:+ "'.")
                   (pushed Critical
                      ("Layer '" +:+ name +:+ "' failed to load from temporary file.") st1))
          end
    end.
Proof.
  unfold reload_layer, bindM. rewrite get_geojson_hash_run.
  destruct (fetch_result _) as [[hash_val content]|]; simpl; [|reflexivity].
  unfold layer_present.
  destruct (existsb _ (project st) && _) eqn:Hsame; [reflexivity|].
  rewrite create_layer_from_content_cases. simpl.
  destruct (ogr_open env content) as [ogr|e]; simpl; [|reflexivity].
  destruct (ogr_valid ogr) eqn:Hvalid; simpl; [|reflexivity].
  unfold new_layer. simpl. rewrite ?Hvalid. simpl.
  unfold without_first_named, wiring_without_first_named.
  destruct (existsb _ (project st)) eqn:Hpresent; simpl.
  - destruct (find _ (project st)) as [old|] eqn:Hfind; reflexivity.
  - destruct (find _ (project st)) as [old|] eqn:Hfind; [|reflexivity].
    apply find_some in Hfind. destruct Hfind as [Hin Hname].
    assert (existsb (fun lyr => String.eqb (Qgis.name lyr) name) (project st) = true)
      by (apply existsb_exists; eauto).
    congruence.
Qed.

(** X16.  A poll whose fetch fails reports it and changes nothing: the
    project, the hashes, the wiring and the diff are as before. *)
Theorem reload_fetch_failed (env : Env) (name url token : string) (st : State) :
  fetch_failed (send env (http_log st) (get_request url token)) ->
  reload_layer env name url token st
  = (Ok tt,
     pushed Critical ("Failed to check updates for layer '" +:+ name +:+ "'.")
       (set_http_log (http_log st ++ [get_request url token]) st)).
Proof.
  intros Hfailed. rewrite reload_layer_cases. unfold fetch_result, fetch_failed in *.
  destruct (send env _ _) as [response|e]; [|reflexivity].
  destruct (Z.eqb_spec (status_code response) 200); [contradiction | reflexivity].
Qed.

Lemma reload_layer_frame (env : Env) (name url token : string) (st : State) :
  exists st',
    reload_layer env name url token st = (Ok tt, st')
    /\ http_log st' = http_log st ++ [get_request url token]
    /\ diff st' = diff st
    /\ layers st' = layers st
    /\ settings st' = settings st
    /\ project_file st' = project_file st.
Proof.
  rewrite reload_layer_cases. simpl.
  destruct (fetch_result _) as [[hash_val content]|]; [|eauto 10].
  destruct (_ && _); [eauto 10|].
  destruct (ogr_open env content) as [ogr|e]; [|eauto 10].
  destruct (ogr_valid ogr); eauto 10.
Qed.

(** X17.  A reload never raises, sends exactly one GET, and never touches
    the diff, the registry or the settings: identifiers tracked for the
    layer it replaces stay in the diff. *)
Theorem reload_keeps_diff_and_registry (env : Env) (name url token : string) (st : State) :
  exists st',
    reload_layer env name url token st = (Ok tt, st')
    /\ http_log st' = http_log st ++ [get_request url token]
    /\ diff st' = diff st
    /\ layers st' = layers st
    /\ settings st' = settings st.
Proof.
  destruct (reload_layer_frame env name url token st) as (st' & H1 & H2 & H3 & H4 & H5 & _).
  eauto 10.
Qed.

(** X18.  In a reload the hash and the layer change together or not at
    all: either the project, the wiring and the hashes are as before, or
    the hash of the fetched body is stored under the name and a valid layer
    of that name is in the project, wired with the URL and the token. *)
Theorem reload_hash_and_layer_together (env : Env) (name url token : string) (st : State) :
  let st' := exec (reload_layer env name url token) st in
  (project st' = project st /\ connections st' = connections st
   /\ layer_hashes st' = layer_hashes st)
  \/ exists response layer,
       send env (http_log st) (get_request url token) = Ok response
       /\ status_code response = 200
       /\ layer_hashes st' = <[name := Hashlib.md5_hexdigest (content response)]> (layer_hashes st)
       /\ In layer (project st')
       /\ Qgis.name layer = name /\ isValid layer = true
       /\ In (layer_id layer, (url, token)) (connections st').
Proof.
  unfold exec. rewrite reload_layer_cases. simpl. unfold fetch_result.
  destruct (send env _ _) as [response|e]; [|left; repeat split; reflexivity].
  destruct (Z.eqb_spec (status_code response) 200) as [Hstatus|_];
    [|left; repeat split; reflexivity].
  destruct (_ && _); [left; repeat split; reflexivity|].
  destruct (ogr_open env (content response)) as [ogr|e]; [|left; repeat split; reflexivity].
  destruct (ogr_valid ogr) eqn:Hvalid; [|left; repeat split; reflexivity].
  right. exists response, (new_layer (next_layer_id st) name ogr). simpl.
  split; [reflexivity|]. split; [exact Hstatus|]. split; [reflexivity|].
  split; [apply in_or_app; right; now left|].
  split; [reflexivity|].
  split; [unfold new_layer; simpl; exact Hvalid|].
  apply in_or_app. right. now left.
Qed.

(** Membership in a list filtered by identifier, and the layer that the
    search by name finds when the name is held by one layer only. *)
Lemma in_filter_id (A : Type) (key : A -> nat) (id : nat) (l : list A) (x : A) :
  In x (filter (fun y => bool_decide (key y <> id)) l) <-> In x l /\ key x <> id.
Proof.
  induction l as [|y l IH]; simpl.
  - tauto.
  - rewrite filter_cons. destruct (decide _) as [Hy|Hy]; simpl; rewrite IH.
    + apply bool_decide_unpack in Hy. split.
      * intros [->|[? ?]]; tauto.
      * intros [[->|?] ?]; tauto.
    + assert (key y = id).
      { destruct (decide (key y = id)) as [?|Hne]; [assumption|].
        exfalso. apply Hy. now apply bool_decide_pack. }
      split.
      * intros [? ?]; tauto.
      * intros [[->|?] ?]; [contradiction | tauto].
Qed.

Lemma find_named_unique (name : string) (old : Layer) (layers : list Layer) :
  In old layers -> Qgis.name old = name ->
  (forall lyr, In lyr layers -> Qgis.name lyr = name -> layer_id lyr = layer_id old) ->
  exists lyr, find (fun lyr => String.eqb (Qgis.name lyr) name) layers = Some lyr
              /\ layer_id lyr = layer_id old.
Proof.
  intros Hin Hname Huniq.
  destruct (find _ layers) as [lyr|] eqn:Hfind.
  - exists lyr. split; [reflexivity|].
    apply find_some in Hfind. destruct Hfind as [Hin' Hname'].
    apply String.eqb_eq in Hname'. now apply Huniq.
  - exfalso. pose proof (find_none _ _ Hfind old Hin) as H. simpl in H.
    rewrite Hname, String.eqb_refl in H. discriminate.
Qed.

(** X19.  When one layer of the project has the name, the fetched body
    has another hash than the stored one and OGR reads a valid layer from
    it: the project afterwards holds the new layer and the layers it held
    before except the one of that name, the wiring likewise loses the old
    layer's entries and gains the new one's, the new hash is stored and
    the update is reported. *)
Theorem reload_replaces_layer (env : Env) (name url token : string) (st : State)
    (response : Response) (ogr : OgrData) (old : Layer) :
  In old (project st) ->
  Qgis.name old = name ->
  (forall lyr, In lyr (project st) -> Qgis.name lyr = name -> layer_id lyr = layer_id old) ->
  send env (http_log st) (get_request url token) = Ok response ->
  status_code response = 200 ->
  layer_hashes st !! name <> Some (Hashlib.md5_hexdigest (content response)) ->
  ogr_open env (content response) = Ok ogr ->
  ogr_valid ogr = true ->
  let st' := exec (reload_layer env name url token) st in
  (forall lyr, In lyr (project st')
               <-> (In lyr (project st) /\ layer_id lyr <> layer_id old)
                   \/ lyr = new_layer (next_layer_id st) name ogr)
  /\ (forall c, In c (connections st')
                <-> (In c (connections st) /\ c.1 <> layer_id old)
                    \/ c = (next_layer_id st, (url, token)))
  /\ layer_hashes st' !! name = Some (Hashlib.md5_hexdigest (content response))
  /\ message_bar st' = message_bar st ++ [(Info, "Layer '" +:+ name +:+ "' updated.")].
Proof.
  intros Hin Hname Huniq Hsend Hstatus Hhash Hogr Hvalid.
  destruct (find_named_unique name old (project st) Hin Hname Huniq) as (lyr0 & Hfind & Hid).
  unfold exec.
  rewrite reload_layer_cases. simpl. rewrite Hsend. unfold fetch_result.
  rewrite Hstatus. simpl.
  rewrite (bool_decide_eq_false_2 _ Hhash), andb_false_r, Hogr, Hvalid. simpl.
  unfold without_first_named, wiring_without_first_named. rewrite Hfind, Hid.
  split; [|split; [|split]].
  - intros lyr. rewrite in_app_iff, (in_filter_id _ layer_id). simpl.
    split; (intros [?|H]; [now left | right]); [destruct H as [H|[]]|left]; congruence.
  - intros c. rewrite in_app_iff, (in_filter_id _ (fun c => c.1)). simpl.
    split; (intros [?|H]; [now left | right]); [destruct H as [H|[]]|left]; congruence.
  - apply lookup_insert_eq.
  - reflexivity.
Qed.

(* ===================================================================== *)
(** ** More on the registry                                               *)
(* ===================================================================== *)

(** One entry of [load_bookmarks], path by path. *)
Lemma load_entry_cases (env : Env) (entry : string * list (string * string)) (st : State) :
  load_entry env entry st
  = let st0 := set_http_log (http_log st ++ [entry_request entry]) st in
    match fetch_result (send env (http_log st) (entry_request entry)) with
    | None => (Ok tt, st0)
    | Some (hash_val, content) =>
        if bool_decide (content = []) then (Ok tt, st0)
        else
          let st1 := set_layer_hashes (<[entry.1 := hash_val]> (layer_hashes st)) st0 in
          match ogr_open env content with
          | Raise e =>
              (Ok tt, pushed Critical ("Error creating layer from content: " +:+ exn_str e) st1)
          | Ok ogr =>
              let st2 := set_next_layer_id (S (next_layer_id st)) st1 in
              if ogr_valid ogr then
                (Ok tt,
                 set_project (project st ++ [new_layer (next_layer_id st) entry.1 ogr])
                   (connections st
                      ++ [(next_layer_id st,
                           (default "" (dict_get "url" entry.2),
                            default "" (dict_get "token" entry.2)))])
                   st2)
              else
                (Ok tt,
                 pushed Critical
                   ("Layer '" +:+ entry.1 +:+ "' failed to load from temporary file.") st2)
          end
    end.
Proof.
  unfold load_entry, bindM. rewrite get_geojson_hash_run. fold (entry_request entry).
  unfold fetch_result.
  destruct (send env _ _) as [response|e]; simpl; [|reflexivity].
  destruct (status_code response =? 200); simpl; [|reflexivity].
  rewrite md5_hexdigest_truthy. simpl.
  destruct (bool_decide (content response = [])); simpl; [reflexivity|].
  rewrite create_layer_from_content_cases. simpl.
  destruct (ogr_open env (content response)) as [ogr|e]; simpl; [|reflexivity].
  destruct (ogr_valid ogr) eqn:Hvalid; simpl; [|reflexivity].
  unfold new_layer. simpl. rewrite ?Hvalid. reflexivity.
Qed.

(** X20.  While the registry is loaded the hash of an entry is stored
    before its body is decoded: when OGR reads no valid layer from the
    body, the hash is stored all the same and no layer is added. *)
Theorem load_entry_hash_without_layer (env : Env) (entry : string * list (string * string))
    (st : State) (response : Response) :
  send env (http_log st) (entry_request entry) = Ok response ->
  status_code response = 200 ->
  content response <> [] ->
  match ogr_open env (content response) with
  | Ok ogr => ogr_valid ogr = false
  | Raise _ => True
  end ->
  let st' := exec (load_entry env entry) st in
  layer_hashes st' = <[entry.1 := Hashlib.md5_hexdigest (content response)]> (layer_hashes st)
  /\ project st' = project st
  /\ connections st' = connections st
  /\ exists text, message_bar st' = message_bar st ++ [(Critical, text)].
Proof.
  intros Hsend Hstatus Hcontent Hogr. unfold exec. rewrite load_entry_cases. simpl.
  rewrite Hsend. unfold fetch_result. rewrite Hstatus. simpl.
  rewrite (bool_decide_eq_false_2 _ Hcontent).
  destruct (ogr_open env (content response)) as [ogr|e]; simpl.
  - rewrite Hogr. simpl. eauto 10.
  - eauto 10.
Qed.

(** X21.  An entry whose fetch fails, or is answered 200 with an empty
    body, is passed over in silence: but for the request sent, the state is
    as before, and no message is shown. *)
Theorem load_entry_skipped (env : Env) (entry : string * list (string * string)) (st : State) :
  fetch_failed (send env (http_log st) (entry_request entry))
  \/ (exists response, send env (http_log st) (entry_request entry) = Ok response
                       /\ content response = []) ->
  load_entry env entry st
  = (Ok tt, set_http_log (http_log st ++ [entry_request entry]) st).
Proof.
  intros Hskip. rewrite load_entry_cases. simpl. unfold fetch_result, fetch_failed in *.
  destruct (send env _ _) as [response|e]; [|reflexivity].
  destruct (Z.eqb_spec (status_code response) 200) as [Heq|Hne]; [|reflexivity].
  destruct Hskip as [Hne|(response' & Hr & Hempty)]; [contradiction|].
  injection Hr as <-. rewrite Hempty. reflexivity.
Qed.

(** X22.  What [save_bookmarks] wrote for a project, [load_bookmarks]
    reads back: in any later state with these settings and this project
    file, loading makes [self.layers] the saved registry again and polls
    each of its entries once. *)
Theorem save_then_load (env : Env) (saved_from later : State) :
  project_file saved_from <> "" ->
  settings later = settings (exec save_bookmarks saved_from) ->
  project_file later = project_file saved_from ->
  exists st',
    load_bookmarks env later = (Ok tt, st')
    /\ layers st' = layers saved_from
    /\ http_log st' = http_log later ++ map entry_request (layers saved_from).
Proof.
  intros Hfile Hsettings Hsame.
  assert (Hstored : settings later !! ("bookmarks/" +:+ project_file later)
                    = Some (Registry (layers saved_from))).
  { rewrite Hsettings, Hsame. unfold exec, save_bookmarks, bindM, get, truthy.
    destruct (String.eqb_spec (project_file saved_from) "") as [|_]; [contradiction|].
    simpl. apply lookup_insert_eq. }
  destruct (for_each_load_run env (layers saved_from) (set_layers (layers saved_from) later))
    as (st' & Hrun & Hlog & Hlayers & _).
  exists st'. repeat split; [|assumption|assumption].
  unfold load_bookmarks, bindM, get, try_exceptM, lift, truthy.
  rewrite Hsame.
  destruct (String.eqb_spec (project_file saved_from) "") as [|_]; [contradiction|].
  simpl. rewrite <- Hsame, Hstored. simpl.
  unfold bindM, modify. rewrite Hrun. reflexivity.
Qed.

(** X23.  When the stored registry is not JSON, loading sends nothing,
    shows "Failed to load bookmarks" and leaves [self.layers] empty. *)
Theorem load_malformed_registry (env : Env) (st : State) (e : Exn) :
  project_file st <> "" ->
  settings st !! bookmarks_key st = Some (Malformed e) ->
  load_bookmarks env st
  = (Ok tt, set_layers [] (pushed Critical ("Failed to load bookmarks: " +:+ exn_str e) st)).
Proof.
  intros Hfile Hstored. unfold bookmarks_key in Hstored.
  unfold load_bookmarks, bindM, get, try_exceptM, lift, truthy.
  destruct (String.eqb_spec (project_file st) "") as [|_]; [contradiction|].
  simpl. rewrite Hstored. reflexivity.
Qed.

Lemma dict_get_del_eq {V} (k : string) (d : list (string * V)) :
  dict_get k (dict_del k d) = None.
Proof.
  unfold dict_del. induction d as [|[k' v'] d IH]; [reflexivity|].
  rewrite filter_cons. simpl.
  destruct (decide _) as [Hkeep|_]; [|assumption].
  apply bool_decide_unpack in Hkeep. simpl.
  destruct (decide (k = k')); [congruence | assumption].
Qed.

Lemma dict_get_del_ne {V} (k k0 : string) (d : list (string * V)) :
  k0 <> k -> dict_get k0 (dict_del k d) = dict_get k0 d.
Proof.
  intros Hne. unfold dict_del. induction d as [|[k' v'] d IH]; [reflexivity|].
  rewrite filter_cons. simpl.
  destruct (decide _) as [Hkeep|Hdrop].
  - simpl. destruct (decide (k0 = k')); [reflexivity | assumption].
  - destruct (decide (k0 = k')) as [->|]; [|assumption].
    exfalso. apply Hdrop. apply bool_decide_pack. simpl. congruence.
Qed.

(** X24.  Deleting a bookmark that is registered takes its name out of the
    registry and out of the hashes and leaves every other name alone; the
    registry that is left is what is saved for the project.  The layer
    itself stays in the project, wired as before.  Deleting a name that is
    not registered does nothing at all. *)
Theorem delete_bookmark_effect (name : string) (st : State) :
  let st' := exec (delete_bookmark name) st in
  (dict_get name (layers st) = None -> delete_bookmark name st = (Ok tt, st))
  /\ (is_Some (dict_get name (layers st)) ->
      dict_get name (layers st') = None
      /\ layer_hashes st' !! name = None
      /\ (forall other, other <> name ->
            dict_get other (layers st') = dict_get other (layers st)
            /\ layer_hashes st' !! other = layer_hashes st !! other)
      /\ project st' = project st
      /\ connections st' = connections st
      /\ diff st' = diff st
      /\ (project_file st <> "" ->
          settings st' !! bookmarks_key st = Some (Registry (layers st')))
      /\ message_bar st' = message_bar st ++ [(Info, "Bookmark '" +:+ name +:+ "' deleted.")]).
Proof.
  unfold exec, delete_bookmark, bindM, get. split.
  - intros Hnone. rewrite Hnone. reflexivity.
  - intros Hsome. rewrite (bool_decide_eq_true_2 _ Hsome). simpl.
    unfold save_bookmarks, bindM, get, truthy. simpl.
    destruct (String.eqb_spec (project_file st) "") as [Hempty|Hfile]; simpl.
    + repeat split; try reflexivity.
      * apply dict_get_del_eq.
      * apply lookup_delete_eq.
      * now apply dict_get_del_ne.
      * now apply lookup_delete_ne.
      * intros Hfile. contradiction.
    + repeat split; try reflexivity.
      * apply dict_get_del_eq.
      * apply lookup_delete_eq.
      * now apply dict_get_del_ne.
      * now apply lookup_delete_ne.
      * intros _. apply lookup_insert_eq.
Qed.

Lemma poll_sweep_run (env : Env) (entries : list (string * list (string * string)))
    (st : State) :
  exists st',
    for_each entries
      (fun entry => reload_layer env entry.1 (default "" (dict_get "url" entry.2))
                      (default "" (dict_get "token" entry.2))) st = (Ok tt, st')
    /\ http_log st' = http_log st ++ map entry_request entries
    /\ layers st' = layers st /\ diff st' = diff st.
Proof.
  revert st. induction entries as [|entry entries IH]; intros st; simpl.
  - exists st. now rewrite app_nil_r.
  - unfold bindM.
    destruct (reload_layer_frame env entry.1 (default "" (dict_get "url" entry.2))
                (default "" (dict_get "token" entry.2)) st)
      as (st1 & -> & Hlog & Hdiff & Hlayers & _).
    destruct (IH st1) as (st2 & Hrun & Hlog2 & Hlayers2 & Hdiff2).
    exists st2. split; [assumption|].
    rewrite Hlog2, Hlog, <- app_assoc. repeat split; congruence.
Qed.

(** X25.  A poll sweep never raises and sends one GET for every
    registered name, in the order of the registry, whatever the outcome of
    the polls before; the registry and the diff are as before. *)
Theorem refresh_layers_polls_every_entry (env : Env) (st : State) :
  exists st',
    refresh_layers env st = (Ok tt, st')
    /\ http_log st' = http_log st ++ map entry_request (layers st)
    /\ layers st' = layers st
    /\ diff st' = diff st.
Proof.
  unfold refresh_layers, bindM, get. apply poll_sweep_run.
Qed.

(* ===================================================================== *)
(** ** The worker                                                         *)
(* ===================================================================== *)

Lemma mapR_ext_retyped {A} (f g : A -> Result PyData) (l : list A) :
  (forall a, g a = Py.bind (f a) (fun d => Ok (retyped d))) ->
  mapR g l = Py.bind (mapR f l) (fun ds => Ok (map retyped ds)).
Proof.
  intros Hfg. induction l as [|a l IH]; simpl; [reflexivity|].
  rewrite Hfg, IH. destruct (f a); simpl; [|reflexivity].
  destruct (mapR f l); reflexivity.
Qed.

Lemma worker_tagged_retyped (layer : Layer) (mode : string) (feat : Feature) :
  SyncWorker.tagged layer mode feat
  = Py.bind (tagged layer mode feat) (fun d => Ok (retyped d)).
Proof.
  unfold SyncWorker.tagged, tagged, SyncWorker._serialize_feature, _serialize_feature.
  destruct (serialize_properties layer (attributes feat)); reflexivity.
Qed.

Lemma worker_features_retyped (layer : Layer) (url token : string) (st : State) :
  SyncWorker.features (worker_of layer url token st)
  = Py.bind (sync_features layer st) (fun fs => Ok (map retyped fs)).
Proof.
  unfold SyncWorker.features, sync_features, worker_of. simpl.
  rewrite (mapR_ext_retyped (fun fid => tagged layer "update" (getFeature layer fid)))
    by (intros; apply worker_tagged_retyped).
  rewrite (mapR_ext_retyped (fun kv : Z * Feature => tagged layer "add" kv.2))
    by (intros; apply worker_tagged_retyped).
  destruct (mapR _ (elements _)); simpl; [|reflexivity].
  destruct (mapR _ (_added_features st)); simpl; [|reflexivity].
  now rewrite map_app.
Qed.

(** X26.  A worker emits [finished] exactly once and sends at most one
    request.  Made from the tracked diff, it sends a request exactly when
    [sync_layer_to_server] does, to the same address with the same
    headers, and its features are those of [sync_layer_to_server] with
    "Feature" under "type". *)
Theorem worker_run_against_sync (env env' : Env) (layer : Layer) (url token : string)
    (st : State) :
  let out := SyncWorker.run env' (worker_of layer url token st) (http_log st) in
  let st' := exec (sync_layer_to_server env layer url token) st in
  (exists level text, out.2 = [(level, text)])
  /\ ((out.1 = http_log st /\ http_log st' = http_log st)
      \/ exists features,
           http_log st'
           = http_log st ++ [POST url (upload_headers token) (upload_payload features)]
           /\ out.1
              = http_log st
                ++ [POST url (upload_headers token) (upload_payload (map retyped features))]).
Proof.
  unfold exec, SyncWorker.run. rewrite sync_layer_to_server_cases.
  rewrite worker_features_retyped. unfold changed_ids, worker_of. simpl.
  destruct (decide _); [split; [eauto | left; split; reflexivity]|].
  destruct (sync_features layer st) as [features|e]; simpl;
    [|split; [eauto | left; split; reflexivity]].
  fold (upload_headers token). fold (upload_payload (map retyped features)).
  split.
  - destruct (send env' _ _) as [r|e]; [destruct (status_code r =? 200);
      [destruct (success_message r)|]|]; simpl; eauto.
  - right. exists features. split.
    + destruct (send env _ _) as [r|e]; [destruct (status_code r =? 200);
        [destruct (success_message r)|]|]; reflexivity.
    + destruct (send env' _ _) as [r|e]; [destruct (status_code r =? 200);
        [destruct (success_message r)|]|]; reflexivity.
Qed.

(* ===================================================================== *)
(** ** The dialog                                                         *)
(* ===================================================================== *)

Lemma on_add_rejected (ops : Dialog.StrOps) (env : Env) (form : Dialog.Form) (ui : Dialog.Ui) :
  let url := Dialog.strip ops (Dialog.url_input form) in
  url = ""
  \/ String.prefix "https://" (Dialog.lower ops url) = false
  \/ is_Some (dict_get (form_name ops form) (layers (Dialog.viewer ui))) ->
  exists title text,
    Dialog.on_add ops env form ui = (Ok tt, with_box (Dialog.warning title text) ui).
Proof.
  intros url Hbad. unfold Dialog.on_add. fold url. fold (form_name ops form).
  unfold truthy.
  destruct (String.eqb_spec url "") as [Hempty|Hurl]; simpl; [eauto|].
  destruct (String.prefix "https://" (Dialog.lower ops url)) eqn:Hhttps; simpl; [|eauto].
  destruct Hbad as [?|[?|Hdup]]; [contradiction | discriminate |].
  unfold Dialog.bindU, Dialog.getU.
  rewrite (bool_decide_eq_true_2 _ Hdup). eauto.
Qed.

(** [on_add] once the three checks are passed, path by path. *)
Lemma on_add_accepted (ops : Dialog.StrOps) (env : Env) (form : Dialog.Form) (ui : Dialog.Ui) :
  let url := Dialog.strip ops (Dialog.url_input form) in
  let name := form_name ops form in
  let token := Dialog.strip ops (Dialog.token_input form) in
  let st := Dialog.viewer ui in
  let st0 := set_http_log (http_log st ++ [get_request url token]) st in
  url <> "" ->
  String.prefix "https://" (Dialog.lower ops url) = true ->
  dict_get name (layers st) = None ->
  Dialog.on_add ops env form ui
  = match fetch_result (send env (http_log st) (get_request url token)) with
    | None =>
        (Ok tt, with_box (Dialog.critical "GeoJSON Viewer" "Failed to download or parse layer.")
                  (with_viewer st0 ui))
    | Some (hash_val, content) =>
        match ogr_open env content with
        | Raise e =>
            (Ok tt,
             with_viewer
               (pushed Critical "Failed to load layer from content."
                  (pushed Critical ("Error creating layer from content: " +:+ exn_str e) st0))
               ui)
        | Ok ogr =>
            let st1 := set_next_layer_id (S (next_layer_id st)) st0 in
            if ogr_valid ogr then
              let st2 :=
                set_layer_hashes (<[name := hash_val]> (layer_hashes st))
                  (set_layers (layers st ++ [(name, [("url", url); ("token", token)])])
                     (set_project (project st ++ [new_layer (next_layer_id st) name ogr])
                        (connections st ++ [(next_layer_id st, (url, token))]) st1)) in
              (Ok tt,
               {| Dialog.viewer :=
                    pushed Info ("Layer '" +:+ name +:+ "' added successfully.")
                      (exec save_bookmarks st2);
                  Dialog.timer := Some (Dialog.refresh_input form * 1000);
                  Dialog.boxes := Dialog.boxes ui;
                  Dialog.bookmarks := Dialog.bookmarks ui ++ [Dialog.item_text name url] |})
            else
              (Ok tt,
               with_viewer
                 (pushed Critical "Failed to load layer from content."
                    (pushed Critical
                       ("Layer '" +:+ name +:+ "' failed to load from temporary file.") st1))
                 ui)
        end
    end.
Proof.
  intros url name token st st0 Hurl Hhttps Hfresh.
  unfold Dialog.on_add. fold url. fold (form_name ops form). fold name. fold token.
  unfold truthy at 1.
  destruct (String.eqb_spec url "") as [?|_]; [contradiction|]. simpl.
  rewrite Hhttps. simpl.
  unfold Dialog.bindU at 1. unfold Dialog.getU. fold st. rewrite Hfresh.
  rewrite bool_decide_eq_false_2 by (intros [x Hx]; discriminate).
  unfold Dialog.bindU at 1. unfold Dialog.call at 1. fold st.
  rewrite get_geojson_hash_run. fold st0.
  destruct (fetch_result _) as [[hash_val content]|]; [|reflexivity].
  unfold Dialog.bindU at 1. unfold Dialog.call at 1. simpl.
  rewrite create_layer_from_content_cases.
  destruct (ogr_open env content) as [ogr|e]; simpl; [|reflexivity].
  destruct (ogr_valid ogr) eqn:Hvalid; simpl; [|reflexivity].
  unfold new_layer. simpl. rewrite ?Hvalid.
  unfold Dialog.bindU, Dialog.call, addMapLayer, connect_sync_signal, modify,
    Dialog.timer_start, Dialog.addItem, pushInfo, push, exec. simpl.
  fold st. rewrite (dict_set_fresh name _ (layers st)).
  - destruct (save_bookmarks _) as [[[]|e] st3] eqn:Hsave; simpl.
    + unfold save_bookmarks, bindM, get in Hsave. simpl in Hsave.
      destruct (negb (truthy (project_file st))); injection Hsave as <-; reflexivity.
    + unfold save_bookmarks, bindM, get in Hsave. simpl in Hsave.
      destruct (negb (truthy (project_file st))); discriminate.
  - unfold dict_keys. intros Hin. apply in_map_iff in Hin.
    destruct Hin as ([k v] & Hk & Hin). simpl in Hk. subst k.
    clear -Hin Hfresh. induction (layers st) as [|[k' v'] d IH]; [contradiction|].
    simpl in Hfresh. destruct (decide (name = k')) as [|Hne]; [discriminate|].
    destruct Hin as [Heq|Hin]; [congruence | now apply IH].
Qed.

Lemma save_bookmarks_run (st : State) :
  save_bookmarks st
  = (Ok tt,
     if truthy (project_file st)
     then set_settings (<[bookmarks_key st := Registry (layers st)]> (settings st)) st
     else st).
Proof.
  unfold save_bookmarks, bindM, get, bookmarks_key.
  destruct (truthy (project_file st)); reflexivity.
Qed.

(** X27.  "Add Layer" with no URL, with a URL whose lower-case form does
    not begin with https://, or with a name that is registered already,
    shows one warning and does nothing else: no request goes out and the
    plugin, the timer and the bookmarks list are as before. *)
Theorem on_add_rejects (ops : Dialog.StrOps) (env : Env) (form : Dialog.Form) (ui : Dialog.Ui) :
  let url := Dialog.strip ops (Dialog.url_input form) in
  url = ""
  \/ String.prefix "https://" (Dialog.lower ops url) = false
  \/ is_Some (dict_get (form_name ops form) (layers (Dialog.viewer ui))) ->
  exists title text,
    Dialog.on_add ops env form ui = (Ok tt, with_box (Dialog.warning title text) ui).
Proof.
  intros url [Hempty|[Hplain|Hdup]].
  - unfold Dialog.on_add. fold url. rewrite Hempty. simpl. eauto.
  - unfold Dialog.on_add. fold url.
    destruct (negb (truthy url)); [eauto|]. rewrite Hplain. simpl. eauto.
  - unfold Dialog.on_add. fold url. fold (form_name ops form).
    destruct (negb (truthy url)); [eauto|].
    destruct (negb (String.prefix "https://" (Dialog.lower ops url))); [eauto|].
    unfold Dialog.bindU, Dialog.getU.
    rewrite (bool_decide_eq_true_2 _ Hdup). eauto.
Qed.

(** X28.  "Add Layer" with an https URL and a new name, answered 200 with a
    body OGR reads as a valid layer: the name is registered last, with the
    stripped URL and token; the hash of the body is stored; the layer is
    added to the project and wired; the registry is saved when the project
    has a file; the timer is started with the interval in milliseconds and
    the bookmarks list gets the item. *)
Theorem on_add_registers (ops : Dialog.StrOps) (env : Env) (form : Dialog.Form)
    (ui : Dialog.Ui) (response : Response) (ogr : OgrData) :
  let url := Dialog.strip ops (Dialog.url_input form) in
  let name := form_name ops form in
  let token := Dialog.strip ops (Dialog.token_input form) in
  let st := Dialog.viewer ui in
  url <> "" ->
  String.prefix "https://" (Dialog.lower ops url) = true ->
  dict_get name (layers st) = None ->
  send env (http_log st) (get_request url token) = Ok response ->
  status_code response = 200 ->
  ogr_open env (content response) = Ok ogr ->
  ogr_valid ogr = true ->
  let ui' := (Dialog.on_add ops env form ui).2 in
  let st' := Dialog.viewer ui' in
  layers st' = layers st ++ [(name, [("url", url); ("token", token)])]
  /\ layer_hashes st' = <[name := Hashlib.md5_hexdigest (content response)]> (layer_hashes st)
  /\ project st' = project st ++ [new_layer (next_layer_id st) name ogr]
  /\ connections st' = connections st ++ [(next_layer_id st, (url, token))]
  /\ (project_file st <> "" -> settings st' !! bookmarks_key st = Some (Registry (layers st')))
  /\ (project_file st = "" -> settings st' = settings st)
  /\ Dialog.timer ui' = Some (Dialog.refresh_input form * 1000)
  /\ Dialog.bookmarks ui' = Dialog.bookmarks ui ++ [Dialog.item_text name url]
  /\ message_bar st'
     = message_bar st ++ [(Info, "Layer '" +:+ name +:+ "' added successfully.")].
Proof.
  intros url name token st Hurl Hhttps Hfresh Hsend Hstatus Hogr Hvalid.
  rewrite on_add_accepted by assumption.
  fold url name token st. rewrite Hsend. unfold fetch_result. rewrite Hstatus. simpl.
  rewrite Hogr, Hvalid. simpl. unfold exec. rewrite save_bookmarks_run. simpl.
  unfold truthy, bookmarks_key.
  destruct (String.eqb_spec (project_file st) "") as [Hnofile|Hfile]; simpl.
  - repeat split; try reflexivity. intros H. contradiction.
  - repeat split; try reflexivity.
    + intros _. apply lookup_insert_eq.
    + intros H. contradiction.
Qed.

Lemma dict_keys_app_fresh {V} (k : string) (v : V) (d : list (string * V)) :
  dict_get k d = None -> List.NoDup (dict_keys d) -> List.NoDup (dict_keys (d ++ [(k, v)])).
Proof.
  intros Hfresh Hnd. unfold dict_keys in *. rewrite map_app. simpl.
  apply NoDup_ListNoDup, NoDup_app. repeat split.
  - now apply NoDup_ListNoDup.
  - intros x Hx Hk. apply list_elem_of_In in Hk. destruct Hk as [Hk|[]]. subst x.
    apply list_elem_of_In in Hx. clear Hnd.
    induction d as [|[k' v'] d IH]; [contradiction|].
    simpl in Hfresh. destruct (decide (k = k')) as [|Hne]; [discriminate|].
    destruct Hx as [Heq|Hx]; [simpl in Heq; congruence | now apply IH].
  - apply NoDup_ListNoDup. constructor; [intros []|constructor].
Qed.

(** X29.  "Add Layer" never raises and never changes or drops a registered
    entry nor the diff.  It leaves the registry as it is, or appends one
    entry: under a name that was not registered, with a URL that passed the
    https check, and with its hash stored and a valid layer of its name in
    the project.  The names of the registry stay distinct. *)
Theorem on_add_registry_grows (ops : Dialog.StrOps) (env : Env) (form : Dialog.Form)
    (ui : Dialog.Ui) :
  let st := Dialog.viewer ui in
  exists ui',
    Dialog.on_add ops env form ui = (Ok tt, ui')
    /\ diff (Dialog.viewer ui') = diff st
    /\ (List.NoDup (dict_keys (layers st)) ->
        List.NoDup (dict_keys (layers (Dialog.viewer ui'))))
    /\ (layers (Dialog.viewer ui') = layers st
        \/ exists name url token layer,
             layers (Dialog.viewer ui') = layers st ++ [(name, [("url", url); ("token", token)])]
             /\ dict_get name (layers st) = None
             /\ String.prefix "https://" (Dialog.lower ops url) = true
             /\ is_Some (layer_hashes (Dialog.viewer ui') !! name)
             /\ In layer (project (Dialog.viewer ui'))
             /\ Qgis.name layer = name /\ isValid layer = true).
Proof.
  intros st.
  set (url := Dialog.strip ops (Dialog.url_input form)).
  set (name := form_name ops form).
  destruct (String.eqb_spec url "") as [Hempty|Hurl].
  { destruct (on_add_rejected ops env form ui) as (title & text & ->); [now left|].
    eexists. split; [reflexivity|]. simpl. fold st. auto. }
  destruct (String.prefix "https://" (Dialog.lower ops url)) eqn:Hhttps; cycle 1.
  { destruct (on_add_rejected ops env form ui) as (title & text & ->); [right; now left|].
    eexists. split; [reflexivity|]. simpl. fold st. auto. }
  destruct (dict_get name (layers st)) as [config|] eqn:Hfresh.
  { destruct (on_add_rejected ops env form ui) as (title & text & ->).
    - right. right. fold name st. rewrite Hfresh. eauto.
    - eexists. split; [reflexivity|]. simpl. fold st. auto. }
  rewrite on_add_accepted by assumption. fold url name st.
  destruct (fetch_result _) as [[hash_val content]|];
    [|eexists; split; [reflexivity|]; simpl; auto].
  destruct (ogr_open env content) as [ogr|e];
    [|eexists; split; [reflexivity|]; simpl; auto].
  simpl. destruct (ogr_valid ogr) eqn:Hvalid;
    [|eexists; split; [reflexivity|]; simpl; auto].
  eexists. split; [reflexivity|]. simpl. unfold exec. rewrite save_bookmarks_run. simpl.
  split; [destruct (truthy (project_file st)); reflexivity|].
  split.
  - intros Hnd. destruct (truthy (project_file st)); simpl; now apply dict_keys_app_fresh.
  - right. exists name, url, (Dialog.strip ops (Dialog.token_input form)),
      (new_layer (next_layer_id st) name ogr).
    destruct (truthy (project_file st)); simpl; repeat split; auto;
      try (rewrite lookup_insert_eq; eauto);
      try (apply in_or_app; right; now left);
      unfold new_layer; simpl; now rewrite ?Hvalid.
Qed.

(** ** Splitting the text of a bookmark *)

Example split_like_python :
  Dialog.split Dialog.arrow "a → b → c" = ["a"; "b"; "c"]
  /\ Dialog.split Dialog.arrow "abc" = ["abc"]
  /\ Dialog.split Dialog.arrow "" = [""]
  /\ Dialog.split Dialog.arrow " → x" = [""; "x"]
  /\ Dialog.split Dialog.arrow "a → → u" = ["a"; "→ u"]
  /\ String.length Dialog.arrow = 5%nat.
Proof. vm_compute. repeat split; reflexivity. Qed.












(* ===================================================================== *)
(** ** The further properties at work on the example                      *)
(* ===================================================================== *)

Example strip_and_lower :
  Dialog.strip ascii_ops "  HTTPS://x/ponds.json " = "HTTPS://x/ponds.json"
  /\ Dialog.lower ascii_ops "HTTPS://x/Ponds.json" = "https://x/ponds.json"
  /\ Dialog.strip ascii_ops "   " = "".
Proof. vm_compute. repeat split; reflexivity. Qed.

Lemma serialize_feature_properties_witness :
  _serialize_feature Example.lakes Example.lake_a
  = Ok (DDict [("type", DStr "Point"); ("geometry", asJson (geometry Example.lake_a));
               ("properties", DDict [("name", DStr "Lake A")])]).
Proof.
  apply (serialize_feature_properties Example.lakes Example.lake_a).
  - repeat constructor. intros [].
  - simpl. lia.
Defined.

Lemma sync_after_success_witness :
  let st1 := exec (sync_layer_to_server (Example.server 200 true) Example.lakes
                     "https://x/lakes.json" "") Example.added_42 in
  sync_layer_to_server Example.offline Example.rivers "https://x/rivers.json" "s3cret" st1
  = (Ok tt, pushed Info "No changes to sync." st1).
Proof.
  intros st1.
  apply (sync_after_success (Example.server 200 true) Example.offline Example.lakes
           Example.rivers "https://x/lakes.json" "" "https://x/rivers.json" "s3cret"
           Example.added_42 lakes_upload (Example.answer 200)).
  - vm_compute. reflexivity.
  - reflexivity.
  - reflexivity.
Defined.

Lemma sync_retry_same_request_witness :
  let st1 := exec (sync_layer_to_server (Example.server 500 true) Example.lakes
                     "https://x/lakes.json" "") Example.added_42 in
  diff st1 = diff Example.added_42
  /\ http_log (exec (sync_layer_to_server (Example.server 200 true) Example.lakes
                       "https://x/lakes.json" "") st1)
     = [lakes_upload; lakes_upload].
Proof.
  intros st1.
  destruct (sync_retry_same_request (Example.server 500 true) (Example.server 200 true)
              Example.lakes "https://x/lakes.json" "" Example.added_42 lakes_upload)
    as [Hdiff Hlog].
  - vm_compute. reflexivity.
  - vm_compute. discriminate.
  - split; [exact Hdiff | exact Hlog].
Defined.

Lemma sync_200_unreadable_body_witness :
  let st' := exec (sync_layer_to_server garbled_server Example.lakes
                     "https://x/lakes.json" "") Example.added_42 in
  diff st' = empty_diff
  /\ message_bar st' = [(Critical, "Sync error: JSONDecodeError")].
Proof.
  apply (sync_200_unreadable_body garbled_server Example.lakes "https://x/lakes.json" ""
           Example.added_42
           [DDict [("type", DStr "Point"); ("geometry", asJson (geometry Example.lake_a));
                   ("properties", DDict [("name", DStr "Lake A")]); ("__mode", DStr "add")]]
           {| status_code := 200; content := bytes_of "<html>";
              json := Raise (Exception "JSONDecodeError") |}
           (Exception "JSONDecodeError")).
  - vm_compute. discriminate.
  - vm_compute. reflexivity.
  - reflexivity.
  - reflexivity.
  - reflexivity.
Defined.

Lemma sync_200_message_witness :
  message_bar (exec (sync_layer_to_server quiet_server Example.lakes
                       "https://x/lakes.json" "") Example.added_42)
  = [(Success, "Synced successfully.")].
Proof.
  refine (proj1 (sync_200_message quiet_server Example.lakes "https://x/lakes.json" ""
                   Example.added_42
                   [DDict [("type", DStr "Point"); ("geometry", asJson (geometry Example.lake_a));
                           ("properties", DDict [("name", DStr "Lake A")]);
                           ("__mode", DStr "add")]]
                   {| status_code := 200; content := Example.body; json := Ok (DDict []) |}
                   [] _ _ _ _ _) _).
  - vm_compute. discriminate.
  - vm_compute. reflexivity.
  - reflexivity.
  - reflexivity.
  - reflexivity.
  - reflexivity.
Defined.

Lemma sync_encoding_error_witness :
  sync_layer_to_server (Example.server 200 true) Example.lakes "https://x/lakes.json" ""
    added_wide
  = (Ok tt, pushed Critical "Sync error: '1'" added_wide).
Proof.
  apply (sync_encoding_error (Example.server 200 true) Example.lakes "https://x/lakes.json" ""
           added_wide 43 wide_feature).
  - simpl. now left.
  - simpl. lia.
Defined.

Lemma edit_notifications_set_like_witness :
  let env := Example.offline in
  let once := exec (slot env Example.lakes "https://x/lakes.json" "" (geometryChanged 42))
                   Example.start in
  42 ∈ _edited_features once
  /\ exec (slot env Example.rivers "https://x/rivers.json" "s3cret" (attributeValueChanged 42))
          once
     = once.
Proof.
  intros env once.
  destruct (edit_notifications_set_like env Example.lakes Example.lakes
              "https://x/lakes.json" "" "https://x/lakes.json" "" 42 42
              (geometryChanged 42) (geometryChanged 42) Example.start)
    as (_ & Hin & Hidem & _ & _).
  - now left.
  - now left.
  - split; [exact Hin | exact Hidem].
Defined.

Lemma emit_keeps_added_keys_distinct_witness :
  exists st',
    emit (Example.server 200 true) Example.lakes (featureAdded 42) Example.added_42
    = (Ok tt, st')
    /\ List.NoDup (dict_keys (_added_features st')).
Proof.
  apply (emit_keeps_added_keys_distinct (Example.server 200 true) Example.lakes
           (featureAdded 42) Example.added_42).
  vm_compute. repeat constructor. intros [].
Defined.

Lemma created_layer_hides_id_fields_witness :
  In "id" (hiddenFields (new_layer 2 "lakes" {| ogr_valid := true; ogr_fields := ["id"; "name"];
                                                 ogr_features := ∅ |}))
  /\ ~ In "name" (hiddenFields (new_layer 2 "lakes" {| ogr_valid := true;
                                                       ogr_fields := ["id"; "name"];
                                                       ogr_features := ∅ |})).
Proof.
  destruct (created_layer_hides_id_fields id_server Example.body "lakes" Example.start
              (set_next_layer_id 3 Example.start)
              (new_layer 2 "lakes" {| ogr_valid := true; ogr_fields := ["id"; "name"];
                                      ogr_features := ∅ |})) as [Hhidden _].
  - reflexivity.
  - split.
    + apply Hhidden. split; [now left | simpl; now left].
    + intros Hin. apply Hhidden in Hin. destruct Hin as [[Heq|Heq] _]; discriminate.
Defined.

Lemma reload_fetch_failed_witness :
  reload_layer Example.offline "lakes" "https://x/lakes.json" "" Example.start
  = (Ok tt,
     pushed Critical "Failed to check updates for layer 'lakes'."
       (set_http_log [GET "https://x/lakes.json" []] Example.start)).
Proof.
  apply (reload_fetch_failed Example.offline "lakes" "https://x/lakes.json" "" Example.start).
  exact I.
Defined.

Lemma reload_replaces_layer_witness :
  let st' := exec (reload_layer (Example.server 200 true) "lakes" "https://x/lakes.json" "")
                  Example.start in
  (In Example.rivers (project st') /\ ~ In Example.lakes (project st')
   /\ In (new_layer 2 "lakes" (Example.ogr true)) (project st'))
  /\ layer_hashes st' !! "lakes" = Some (Hashlib.md5_hexdigest Example.body).
Proof.
  intros st'.
  destruct (reload_replaces_layer (Example.server 200 true) "lakes" "https://x/lakes.json" ""
              Example.start (Example.answer 200) (Example.ogr true) Example.lakes)
    as (Hproject & _ & Hhash & _).
  - simpl. now left.
  - reflexivity.
  - intros lyr [<-|[<-|[]]]; [reflexivity | discriminate].
  - reflexivity.
  - reflexivity.
  - vm_compute. discriminate.
  - reflexivity.
  - reflexivity.
  - split; [|exact Hhash]. split; [|split].
    + apply Hproject. left. split; [simpl; tauto | vm_compute; discriminate].
    + intros H. apply Hproject in H. destruct H as [[_ H]|H]; [now apply H | discriminate H].
    + apply Hproject. now right.
Defined.

Lemma load_entry_hash_without_layer_witness :
  let st := set_project [] [] Example.start in
  let st' := exec (load_entry (Example.server 200 false)
                     ("lakes", [("url", "https://x/lakes.json"); ("token", "")])) st in
  layer_hashes st' !! "lakes" = Some (Hashlib.md5_hexdigest Example.body)
  /\ project st' = [].
Proof.
  intros st st'.
  destruct (load_entry_hash_without_layer (Example.server 200 false)
              ("lakes", [("url", "https://x/lakes.json"); ("token", "")]) st
              (Example.answer 200)) as (Hhash & Hproject & _).
  - reflexivity.
  - reflexivity.
  - vm_compute. discriminate.
  - reflexivity.
  - split; [|exact Hproject].
    unfold st'. rewrite Hhash. vm_compute. reflexivity.
Defined.

Lemma load_entry_skipped_witness :
  load_entry picky_server ("lakes", [("url", "https://x/lakes.json"); ("token", "")])
    Example.start
  = (Ok tt, set_http_log [GET "https://x/lakes.json" []] Example.start).
Proof.
  apply (load_entry_skipped picky_server
           ("lakes", [("url", "https://x/lakes.json"); ("token", "")]) Example.start).
  left. vm_compute. discriminate.
Defined.

Lemma save_then_load_witness :
  exists st',
    load_bookmarks picky_server saved = (Ok tt, st')
    /\ layers st' = layers Example.start
    /\ http_log st' = [GET "https://x/lakes.json" [];
                       GET "https://x/rivers.json" [("Authorization", "Bearer s3cret")]].
Proof.
  apply (save_then_load picky_server Example.start saved).
  - discriminate.
  - vm_compute. reflexivity.
  - reflexivity.
Defined.

Lemma load_malformed_registry_witness :
  let st := set_settings {[ "bookmarks//home/u/map.qgz"
                              := Malformed (Exception "JSONDecodeError") ]} Example.start in
  load_bookmarks (Example.server 200 true) st
  = (Ok tt, set_layers [] (pushed Critical "Failed to load bookmarks: JSONDecodeError" st)).
Proof.
  intros st.
  apply (load_malformed_registry (Example.server 200 true) st (Exception "JSONDecodeError")).
  - discriminate.
  - vm_compute. reflexivity.
Defined.

Lemma delete_bookmark_effect_witness :
  let st' := exec (delete_bookmark "lakes") Example.start in
  dict_get "lakes" (layers st') = None
  /\ dict_get "rivers" (layers st') = dict_get "rivers" (layers Example.start)
  /\ project st' = [Example.lakes; Example.rivers]
  /\ delete_bookmark "ponds" Example.start = (Ok tt, Example.start).
Proof.
  intros st'.
  destruct (delete_bookmark_effect "lakes" Example.start) as [_ Hknown].
  destruct (delete_bookmark_effect "ponds" Example.start) as [Hunknown _].
  destruct Hknown as (Hgone & _ & Hothers & Hproject & _); [simpl; eauto|].
  split; [exact Hgone|].
  split; [apply (Hothers "rivers"); discriminate|].
  split; [exact Hproject|].
  apply Hunknown. reflexivity.
Defined.

Lemma on_add_rejects_witness :
  exists title text,
    Dialog.on_add ascii_ops (Example.server 200 true) plain_http_form dialog
    = (Ok tt, with_box (Dialog.warning title text) dialog).
Proof.
  apply (on_add_rejects ascii_ops (Example.server 200 true) plain_http_form dialog).
  right. left. vm_compute. reflexivity.
Defined.

Lemma on_add_registers_witness :
  let ui' := (Dialog.on_add ascii_ops (Example.server 200 true) ponds_form dialog).2 in
  layers (Dialog.viewer ui')
  = layers Example.start ++ [("ponds", [("url", "HTTPS://x/ponds.json"); ("token", "")])]
  /\ Dialog.timer ui' = Some 30000
  /\ Dialog.bookmarks ui'
     = Dialog.bookmarks dialog ++ ["ponds → HTTPS://x/ponds.json"].
Proof.
  intros ui'.
  destruct (on_add_registers ascii_ops (Example.server 200 true) ponds_form dialog
              (Example.answer 200) (Example.ogr true))
    as (Hlayers & _ & _ & _ & _ & _ & Htimer & Hitems & _).
  - vm_compute. discriminate.
  - vm_compute. reflexivity.
  - vm_compute. reflexivity.
  - reflexivity.
  - reflexivity.
  - reflexivity.
  - reflexivity.
  - split; [exact Hlayers|]. split; [exact Htimer | exact Hitems].
Defined.

